(** * AI briefing system: the trigger API, the prompt builders and the intake store

    A shallow embedding of [src/node2_api.py], [src/prompts.py] and
    [src/node1_backend.py].  Python dictionaries are finite maps, Python
    exceptions are an explicit error result, module-level mutable state
    ([job_status], the profile file) is passed explicitly. *)

From Stdlib Require Import ZArith String Ascii List Lia SpecFloat.
From stdpp Require Import base option list gmap strings pretty.


Local Set Warnings "-register-all".

(** ** Python values *)

Module Py.

(** What a JSON document decoded by Python may hold. *)
Inductive value : Type :=
  | VNone
  | VBool (b : bool)
  | VInt (n : Z)
  | VFloat (x : spec_float)
  | VStr (s : string)
  | VList (xs : list value)
  | VDict (d : gmap string value).

(** [d.get(key, dflt)] *)
Definition get (d : gmap string value) (key : string) (dflt : value) : value :=
  default dflt (d !! key).

(** The newline and the double quote, which string literals here avoid. *)
Definition nl : string := String "010"%char EmptyString.
Definition dq : string := String "034"%char EmptyString.

(** [s.split(sep)] for a one-character separator. *)
Fixpoint split (sep : ascii) (s : string) : list string :=
  match s with
  | EmptyString => [""]
  | String c rest =>
      if Ascii.eqb c sep then "" :: split sep rest
      else match split sep rest with
           | h :: t => String c h :: t
           | [] => [String c ""]
           end
  end.

(** A call either returns or raises. *)
Inductive result (E A : Type) : Type :=
  | Ok (a : A)
  | Raise (e : E).
Arguments Ok {E A} a.
Arguments Raise {E A} e.

#[global] Instance result_ret {E} : MRet (result E) := fun A a => Ok a.
#[global] Instance result_bind {E} : MBind (result E) := fun A B f m =>
  match m with
  | Ok a => f a
  | Raise e => Raise e
  end.

(** [fastapi.HTTPException(status_code, detail)] *)
Inductive http_exception : Type :=
  | HTTPException (status_code : Z) (detail : string).

End Py.

(** ** prompts.py *)

Module Prompts.
Import Py.

(** A subscript [a['key']] on a dictionary without that key. *)
Inductive error : Type :=
  | KeyError (key : string).

(** [a[key]] *)
Definition getitem (a : gmap string value) (key : string) : result error value :=
  match a !! key with
  | Some v => Ok v
  | None => Raise (KeyError key)
  end.

(** [", ".join(topics)] *)
Definition format_topics (topics : list string) : string :=
  String.concat ", " topics.

Section formatting.

(** Python's [str()] of a value that is not itself a [str]; the text
    of a [str] is the string. *)
Variable repr : value -> string.

Definition str (v : value) : string :=
  match v with
  | VStr s => s
  | _ => repr v
  end.

(** [LANDSCAPE_SYSTEM.format(user_topics=...)] *)
Definition LANDSCAPE_SYSTEM (user_topics : string) : string :=
  "You are an AI industry analyst creating a daily landscape briefing.

The reader cares about: " +:+ user_topics +:+ "

Your job is to synthesize what's happening across the AI world today into a concise, scannable overview. Think of it like a morning briefing for an executive - high signal, no fluff.

Write in a direct, confident voice. Use present tense. No preamble.".

(** [LANDSCAPE_USER.format(num_sources=..., total_articles=..., summaries=...)] *)
Definition LANDSCAPE_USER (num_sources total_articles : Z) (summaries : string) : string :=
  "Here are today's articles from " +:+ pretty num_sources +:+ " sources ("
  +:+ pretty total_articles +:+ " articles total):

" +:+ summaries +:+ "

Write a 3-4 paragraph " +:+ dq +:+ "Landscape" +:+ dq +:+ " section covering:
1. The biggest story/theme of the day (1 paragraph)
2. Other notable developments worth knowing (1-2 paragraphs)
3. One emerging trend or undercurrent (1 paragraph)

Keep it under 250 words. No bullet points - flowing prose that's easy to scan.".

(** The inner loop of [build_landscape_prompt]:
    [for a in ...: summaries_text += f"- {a['title']}: {a['summary']}\n"] *)
Fixpoint add_bullets (summaries_text : string) (articles : list (gmap string value))
  : result error string :=
  match articles with
  | [] => Ok summaries_text
  | a :: rest =>
      title ← getitem a "title";
      summary ← getitem a "summary";
      add_bullets (summaries_text +:+ "- " +:+ str title +:+ ": " +:+ str summary +:+ nl) rest
  end.

(** The outer loop: [for source, articles in source_summaries.items()],
    the dictionary given by its items in insertion order. *)
Fixpoint add_sources (summaries_text : string)
    (items : list (value * list (gmap string value))) : result error string :=
  match items with
  | [] => Ok summaries_text
  | (source, articles) :: rest =>
      text ← add_bullets (summaries_text +:+ nl +:+ "## " +:+ str source +:+ nl)
               (take 3 articles);
      add_sources text rest
  end.

Definition build_landscape_prompt (user_topics : list string)
    (source_summaries : list (value * list (gmap string value)))
    (total_articles : Z) : result error (string * string) :=
  let system := LANDSCAPE_SYSTEM (format_topics user_topics) in
  summaries_text ← add_sources "" source_summaries;
  let user := LANDSCAPE_USER (Z.of_nat (length source_summaries))
                total_articles summaries_text in
  mret (system, user).

(** The line that the inner loop writes for an article. *)
Definition bullet_line (a : gmap string value) (line : string) : Prop :=
  ∃ title summary,
    a !! "title" = Some title ∧ a !! "summary" = Some summary
    ∧ line = "- " +:+ str title +:+ ": " +:+ str summary +:+ nl.

(** The heading that the outer loop writes for a source. *)
Definition heading (source : value) : string :=
  nl +:+ "## " +:+ str source +:+ nl.

End formatting.

(** A dictionary of sources with every list cut after its third article. *)
Definition first_three (source_summaries : list (value * list (gmap string value)))
  : list (value * list (gmap string value)) :=
  (fun item => (item.1, take 3 item.2)) <$> source_summaries.

End Prompts.

(** ** node2_briefing_generator (imported by node2_api.py) *)

Module BriefingGenerator.
Import Py.

(** Modelled from the spec: the record types of node2_briefing_generator,
    a module that is not among the sources (data model, section 3).  The
    fields hold the values they are built from, whatever their shape.
    [UserProfile] is the profile as the run reads it. *)
Record UserProfile : Type := {
  email : string;
  name : option string;
  briefing_time : string;
  topics : list string;
  created_at : string
}.

(** Modelled from the spec: [RunResult], one per user, with status
    success or failure (section 3). *)
Record RunResult : Type := {
  user_email : string;
  status : string;
  error : option string
}.

(** Modelled from the spec: [Landscape] (section 3). *)
Record Landscape : Type := { content : string }.

(** Modelled from the spec: [ProcessedArticle] (section 3), with the
    keyword arguments that [preview_briefing] passes. *)
Record ProcessedArticle : Type := {
  source : value;
  url : value;
  title : value;
  summary : value;
  relevance : value;
  keywords : value;
  why_selected : value;
  rank : Z
}.

(** Modelled from the spec: [DeepDive] (section 3). *)
Record DeepDive : Type := {
  topic : value;
  hook : value;
  analysis : value;
  related_articles : value
}.

(** Modelled from the spec: [Briefing] (section 3). *)
Record Briefing : Type := {
  landscape : Landscape;
  top_5 : list ProcessedArticle;
  deep_dives : list DeepDive;
  articles_analyzed : Z;
  sources_count : Z
}.

(** Modelled from the spec: the stages of the pipeline of one user
    (section 4.3); [Synthesize] is the landscape, the top 5 and the deep
    dives. *)
Inductive stage : Type :=
  | Fetch | Dedupe | Filter | Group | Process | Synthesize | Compose | Send.

(** A result is a success, or a failure with its captured error. *)
Definition settled (r : RunResult) : Prop :=
  (status r = "success" ∧ error r = None)
  ∨ (status r = "failure" ∧ is_Some (error r)).

Section run.
Context {World : Type}.

(** A stage of the pipeline of one user acts on the outside world, in
    which the articles and the sections produced so far are kept, and
    either completes or raises an exception, of which the text is left. *)
Variable perform : stage -> UserProfile -> World -> (string + unit) * World.

(** Modelled from the spec: the stages in their order; the first
    exception ends the pipeline (section 4.3). *)
Fixpoint run_stages (stages : list stage) (p : UserProfile) (w : World)
  : (string + unit) * World :=
  match stages with
  | [] => (inr tt, w)
  | s :: rest =>
      match perform s p w with
      | (inr _, w') => run_stages rest p w'
      | (inl e, w') => (inl e, w')
      end
  end.

(** Modelled from the spec: the pipeline of one user (section 4.3). *)
Definition pipeline (p : UserProfile) (w : World) : (string + unit) * World :=
  run_stages [Fetch; Dedupe; Filter; Group; Process; Synthesize; Compose; Send]
    p w.

(** Modelled from the spec: the per-user boundary of
    [BriefingGenerator.run] (section 4.3): a stage exception becomes a
    failure result with the captured error and is not raised further. *)
Definition run_user (p : UserProfile) (w : World) : RunResult * World :=
  match pipeline p w with
  | (inr _, w') =>
      ({| user_email := email p; status := "success"; error := None |}, w')
  | (inl e, w') =>
      ({| user_email := email p; status := "failure"; error := Some e |}, w')
  end.

(** Modelled from the spec: the loop of [run] over the profiles, which
    appends the result of each user (section 4.3). *)
Fixpoint run_loop (profiles : list UserProfile) (w : World)
    (results : list RunResult) : list RunResult * World :=
  match profiles with
  | [] => (results, w)
  | p :: rest =>
      let '(r, w') := run_user p w in
      run_loop rest w' (results ++ [r])%list
  end.

(** Modelled from the spec: [BriefingGenerator.run] (section 4.3): for
    each registered profile, in order, execute the pipeline; a failure
    of one user does not prevent the following users from being
    attempted; returns one result per profile. *)
Definition run (profiles : list UserProfile) (w : World)
  : list RunResult * World :=
  run_loop profiles w [].

End run.

End BriefingGenerator.

(** ** node2_api.py *)

Module Node2Api.
Import Py BriefingGenerator.

(** [job_status], the module-level dictionary; [None] is Python's, and
    [last_result] holds a dictionary of counts. *)
Record job_status_t : Type := {
  running : bool;
  last_run : option string;
  last_result : option (gmap string Z)
}.

Definition job_status : job_status_t :=
  {| running := false; last_run := None; last_result := None |}.

Record GenerateRequest : Type := {
  email : option string;
  send_email : bool
}.

(** [GenerateRequest()], the request of an empty body. *)
Definition GenerateRequest_default : GenerateRequest :=
  {| email := None; send_email := true |}.

Record GenerateResponse : Type := {
  status : string;
  message : string;
  users_processed : Z;
  successful : Z;
  failed : Z
}.

(** What [await generator.run()] may raise, as the handler sees it: an
    instance of [Exception] with its [str(e)], or an exception outside
    that class (a cancellation, a keyboard interrupt). *)
Inductive raised : Type :=
  | Exception (str : string)
  | BaseException (str : string).

(** What the handler raises: its own HTTP exceptions, or an exception it
    does not catch. *)
Inductive exn : Type :=
  | Http (e : http_exception)
  | Uncaught (e : raised).

(** [HTTPException(status_code=409, detail="A job is already running")] *)
Definition conflict : exn :=
  Http (HTTPException 409 "A job is already running").

(** Lines 78-82: the conflict test and the acquisition of the flag, which
    run without suspension; [now] is [datetime.utcnow().isoformat()]. *)
Definition acquire (now : string) (js : job_status_t) : result exn job_status_t :=
  if running js
  then Raise conflict
  else Ok {| running := true;
             last_run := Some (now +:+ "Z");
             last_result := last_result js |}.

(** [sum(1 for r in results if r.status == "success")] *)
Definition count_success (results : list RunResult) : Z :=
  Z.of_nat (length (filter (fun r => BriefingGenerator.status r = "success")
                      results)).

(** Lines 88-107: what follows the awaited run, by its outcome: the
    summary, the [except Exception] clause, and the [finally] clause. *)
Definition settle (outcome : result raised (list RunResult)) (js : job_status_t)
  : result exn GenerateResponse * job_status_t :=
  match outcome with
  | Ok results =>
      let successful := count_success results in
      let failed := (Z.of_nat (length results) - successful)%Z in
      (Ok {| status := "completed";
             message := "Generated briefings for "
                        +:+ pretty (length results) +:+ " users";
             users_processed := Z.of_nat (length results);
             successful := successful;
             failed := failed |},
       {| running := false;
          last_run := last_run js;
          last_result := Some {[ "users" := Z.of_nat (length results);
                                 "successful" := successful;
                                 "failed" := failed ]} |})
  | Raise (Exception s) =>
      (Raise (Http (HTTPException 500 s)),
       {| running := false; last_run := last_run js; last_result := last_result js |})
  | Raise (BaseException s) =>
      (Raise (Uncaught (BaseException s)),
       {| running := false; last_run := last_run js; last_result := last_result js |})
  end.

Section generate.
Context {World : Type}.

(** [datetime.utcnow().isoformat()] *)
Variable utcnow : World -> string.

(** [BriefingGenerator(config)] followed by [await generator.run()],
    acting on the outside world. *)
Variable run : World -> result raised (list RunResult) * World.

(** [POST /generate] with no other request arriving during the run. *)
Definition generate_briefings (request : GenerateRequest)
    (js : job_status_t) (w : World)
  : result exn GenerateResponse * job_status_t * World :=
  match acquire (utcnow w) js with
  | Raise e => (Raise e, js, w)
  | Ok js1 =>
      let '(outcome, w') := run w in
      let '(reply, js2) := settle outcome js1 in
      (reply, js2, w')
  end.

End generate.

(** *** Overlapping requests

    The handler is a coroutine of a single event loop: it runs without
    interruption from its entry to [await generator.run()], and from the
    settling of that call to its end.  Other requests are served in
    between. *)

Record server : Type := {
  job : job_status_t;
  awaiting : nat   (* handlers suspended in [await generator.run()] *)
}.

Definition server_init : server := {| job := job_status; awaiting := 0 |}.

(** A request enters the handler: it is rejected, or it acquires the flag
    and suspends in the run. *)
Definition arrive (now : string) (request : GenerateRequest) (s : server)
  : option exn * server :=
  match acquire now (job s) with
  | Raise e => (Some e, s)
  | Ok js1 => (None, {| job := js1; awaiting := S (awaiting s) |})
  end.

(** The run of a suspended handler settles and the handler finishes. *)
Definition resume (outcome : result raised (list RunResult)) (s : server)
  : result exn GenerateResponse * server :=
  let '(reply, js2) := settle outcome (job s) in
  (reply, {| job := js2; awaiting := pred (awaiting s) |}).

Inductive step : server -> server -> Prop :=
  | step_arrive now request s :
      step s (arrive now request s).2
  | step_resume outcome s :
      0 < awaiting s ->
      step s (resume outcome s).2.

Inductive reachable : server -> Prop :=
  | reachable_init : reachable server_init
  | reachable_step s s' : reachable s -> step s s' -> reachable s'.

(** *** The briefing built by [GET /preview/{email}] (lines 157-183) *)

(** [landscape] is the text of [generate_landscape] or [None]; [top5] and
    [deep_dives] are the lists returned by [select_top_5] and
    [generate_deep_dives]. *)
Definition build_briefing (landscape : option string)
    (top5 deep_dives processed : list (gmap string value))
    (articles_by_source : gmap string (list (gmap string value))) : Briefing :=
  {| BriefingGenerator.landscape := {| content := default "" landscape |};
     top_5 :=
       imap (fun i a =>
               {| source := get a "source" (VStr "");
                  url := get a "url" (VStr "");
                  title := get a "title" (VStr "");
                  summary := get a "summary" (VStr "");
                  relevance := get a "relevance" (VInt 0);
                  keywords := get a "keywords" (VList []);
                  why_selected := get a "why_selected" (VStr "");
                  rank := (Z.of_nat i + 1)%Z |})
            (take 5 top5);
     deep_dives :=
       (fun d =>
          {| topic := get d "topic" (VStr "");
             hook := get d "hook" (VStr "");
             analysis := get d "analysis" (VStr "");
             related_articles := get d "related_articles" (VList []) |})
       <$> take 3 deep_dives;
     articles_analyzed := Z.of_nat (length processed);
     sources_count := Z.of_nat (size articles_by_source) |}.

(** The URLs of the processed articles, as [build_deep_dive_prompt] lists
    them to the model: [a.get('url', '')]. *)
Definition processed_urls (processed : list (gmap string value)) : list value :=
  (fun a => get a "url" (VStr "")) <$> processed.

(** The URLs a deep dive cites. *)
Definition cited (d : DeepDive) : list value :=
  match related_articles d with
  | VList urls => urls
  | _ => []
  end.

(** Every URL a deep dive cites is the URL of a processed article. *)
Definition grounded (processed : list (gmap string value)) (d : DeepDive) : Prop :=
  Forall (fun u => u ∈ processed_urls processed) (cited d).

(** The same of a deep dive as the stage returned it. *)
Definition cites_only (processed : list (gmap string value))
    (d : gmap string value) : Prop :=
  Forall (fun u => u ∈ processed_urls processed)
    (match get d "related_articles" (VList []) with
     | VList urls => urls
     | _ => []
     end).

End Node2Api.

(** ** node1_backend.py *)

Module Node1Backend.
Import Py.

(** A validated request body: [email] has passed [EmailStr].  A text field
    holds the UTF-8 text of the Python string. *)
Record UserProfile : Type := {
  version : string;
  email : string;
  name : option string;
  briefing_time : string;
  topics : list string;
  created_at : string
}.

(** The body returned by [POST /api/intake]. *)
Record IntakeResponse : Type := {
  status : string;
  message : string;
  profile : UserProfile
}.

(** The lines that [for line in f] yields for the text of a file opened
    with [open(path, 'r')]: a line ends at a line feed, at a carriage
    return or at the two in a row, each read as one line feed; the last
    line may have no end.  [after_cr] tells that a carriage return has
    just ended a line. *)
Fixpoint file_lines_from (after_cr : bool) (text : string) : list string :=
  match text with
  | EmptyString => []
  | String c rest =>
      if Ascii.eqb c "010"%char
      then if after_cr
           then file_lines_from false rest
           else nl :: file_lines_from false rest
      else if Ascii.eqb c "013"%char
      then nl :: file_lines_from true rest
      else match file_lines_from false rest with
           | line :: others => String c line :: others
           | [] => [String c EmptyString]
           end
  end.

Definition file_lines (text : string) : list string :=
  file_lines_from false text.

(** A text without line feed and carriage return. *)
Definition one_line (s : string) : bool :=
  forallb (fun c => negb (Ascii.eqb c "010"%char) && negb (Ascii.eqb c "013"%char))
          (list_ascii_of_string s).

(** A file that is empty or ends with a line feed. *)
Definition terminated (file : string) : Prop :=
  file = "" ∨ ∃ body, file = body +:+ nl.

Section store.

(** Python's [int(s)] of a string, [None] for [ValueError]; which digits
    and blanks it reads is a matter of the Unicode tables of the
    interpreter. *)
Variable int : string -> option Z.

(** [not line.strip()]: the line holds white space only, by the same
    tables. *)
Variable blank : string -> bool.

(** [profile.json()] *)
Variable json : UserProfile -> string.

(** [UserProfile.parse_raw(line)]; [None] when it raises. *)
Variable parse_raw : string -> option UserProfile.

(** The validation of [briefing_time] in [create_intake]: the two parts
    around the colon, both read by [int], within a day.  Any exception of
    the block gives the same HTTP 400. *)
Definition valid_briefing_time (t : string) : bool :=
  match split ":" t with
  | [hour; minute] =>
      match int hour with
      | Some h =>
          if ((0 <=? h) && (h <? 24))%Z
          then match int minute with
               | Some m => ((0 <=? m) && (m <? 60))%Z
               | None => false
               end
          else false
      | None => false
      end
  | _ => false
  end.

(** [GoogleSheetsWriter.write_profile]: [file] is the text of
    [user_profiles.jsonl], to which the record and a line feed are
    appended; [io_ok] tells whether opening and writing succeed. *)
Definition write_profile (io_ok : bool) (p : UserProfile) (file : string)
  : bool * string :=
  if io_ok then (true, file +:+ json p +:+ nl) else (false, file).

(** The loop of [get_profiles] over the lines of the file; an exception
    ends the reading and the profiles read so far are returned. *)
Fixpoint read_lines (lines : list string) (profiles : list UserProfile)
  : list UserProfile :=
  match lines with
  | [] => profiles
  | line :: rest =>
      if blank line then read_lines rest profiles
      else match parse_raw line with
           | Some p => read_lines rest (profiles ++ [p])%list
           | None => profiles
           end
  end.

(** [GoogleSheetsWriter.get_profiles] *)
Definition get_profiles (file : string) : list UserProfile :=
  read_lines (file_lines file) [].

(** [POST /api/intake] *)
Definition create_intake (io_ok : bool) (p : UserProfile) (file : string)
  : result http_exception IntakeResponse * string :=
  if String.eqb (email p) ""
  then (Raise (HTTPException 400 "Email is required"), file)
  else if negb (valid_briefing_time (briefing_time p))
  then (Raise (HTTPException 400 "Invalid briefing time format (use HH:MM)"), file)
  else match topics p with
       | [] => (Raise (HTTPException 400 "At least one topic must be selected"), file)
       | _ :: _ =>
           let '(success, file') := write_profile io_ok p file in
           if success
           then (Ok {| status := "success";
                       message := "Profile created for " +:+ email p;
                       profile := p |}, file')
           else (Raise (HTTPException 500 "Failed to save profile"), file')
       end.

(** A sequence of intake requests, each with the state of the disk it
    meets. *)
Fixpoint intakes (requests : list (bool * UserProfile)) (file : string)
  : string :=
  match requests with
  | [] => file
  | (io_ok, p) :: rest => intakes rest (create_intake io_ok p file).2
  end.

(** The requests that [create_intake] answers with a success. *)
Definition accepted (io_ok : bool) (p : UserProfile) : bool :=
  io_ok && negb (String.eqb (email p) "")
  && valid_briefing_time (briefing_time p)
  && match topics p with [] => false | _ => true end.

(** The profiles of the requests that are answered with a success, in
    the order of the requests. *)
Definition accepted_profiles (requests : list (bool * UserProfile))
  : list UserProfile :=
  snd <$> filter (fun r => accepted r.1 r.2 = true) requests.

(** The text that the writes of the profiles [ps] add to the file. *)
Definition records (ps : list UserProfile) : string :=
  foldr (fun p rest => json p +:+ nl +:+ rest) "" ps.

(** A line that [get_profiles] reads as a profile, or skips. *)
Definition readable (line : string) : Prop :=
  blank line = true ∨ is_Some (parse_raw line).

(** The record written for [p] is one line, which is not skipped and is
    read back as [p]. *)
Definition reads_back (p : UserProfile) : Prop :=
  one_line (json p) = true
  ∧ blank (json p +:+ nl) = false
  ∧ parse_raw (json p +:+ nl) = Some p.

End store.

(** *** The builtins on ASCII text

    What [int] and [str.strip] do on a text of ASCII characters, where no
    table of the interpreter is needed. *)

(** The blanks that [int] passes over in an ASCII text. *)
Definition int_blank (c : ascii) : bool :=
  let n := nat_of_ascii c in
  (((9 <=? n) && (n <=? 13)) || (n =? 32))%nat.

Fixpoint skip_blanks (cs : list ascii) : list ascii :=
  match cs with
  | c :: rest => if int_blank c then skip_blanks rest else cs
  | [] => []
  end.

Definition is_digit (c : ascii) : bool :=
  let n := nat_of_ascii c in ((48 <=? n) && (n <=? 57))%nat.

(** The digits of an [int(...)] literal: decimal digits, single
    underscores allowed between two digits. *)
Fixpoint int_digits (acc : Z) (after_digit : bool) (cs : list ascii) : option Z :=
  match cs with
  | [] => if after_digit then Some acc else None
  | c :: rest =>
      if is_digit c
      then int_digits (10 * acc + (Z.of_nat (nat_of_ascii c) - 48))%Z true rest
      else if Ascii.eqb c "_"%char && after_digit
           then int_digits acc false rest
           else None
  end.

(** [int(s)] for a text [s] of ASCII characters, short of the limit that
    the interpreter puts on the number of digits. *)
Definition int_ascii (s : string) : option Z :=
  match rev (skip_blanks (rev (skip_blanks (list_ascii_of_string s)))) with
  | "-"%char :: cs => Z.opp <$> int_digits 0 false cs
  | "+"%char :: cs => int_digits 0 false cs
  | cs => int_digits 0 false cs
  end.

(** The white space that [str.strip] removes from an ASCII text. *)
Definition strip_blank (c : ascii) : bool :=
  let n := nat_of_ascii c in
  (((9 <=? n) && (n <=? 13)) || ((28 <=? n) && (n <=? 32)))%nat.

(** [not line.strip()] for a line of ASCII characters. *)
Definition blank_ascii (line : string) : bool :=
  forallb strip_blank (list_ascii_of_string line).

(** A JSON string of a text that needs no escaping. *)
Definition quoted (s : string) : string := dq +:+ s +:+ dq.

(** The text of [profile.json()] for a profile whose fields need no
    escaping. *)
Definition json_plain (p : UserProfile) : string :=
  "{" +:+ quoted "version" +:+ ": " +:+ quoted (version p)
  +:+ ", " +:+ quoted "email" +:+ ": " +:+ quoted (email p)
  +:+ ", " +:+ quoted "name" +:+ ": "
  +:+ match name p with Some n => quoted n | None => "null" end
  +:+ ", " +:+ quoted "briefing_time" +:+ ": " +:+ quoted (briefing_time p)
  +:+ ", " +:+ quoted "topics" +:+ ": ["
  +:+ String.concat ", " (quoted <$> topics p) +:+ "]"
  +:+ ", " +:+ quoted "created_at" +:+ ": " +:+ quoted (created_at p) +:+ "}".

(** The characters that [json.dumps] writes as they are: printable ASCII
    other than the double quote and the backslash. *)
Definition plain_char (c : ascii) : bool :=
  let n := nat_of_ascii c in
  ((32 <=? n) && (n <? 127) && negb (n =? 34) && negb (n =? 92))%nat.

Definition plain (s : string) : bool :=
  forallb plain_char (list_ascii_of_string s).

(** A profile for which [json_plain] is the text of [profile.json()]. *)
Definition plain_profile (p : UserProfile) : bool :=
  plain (version p) && plain (email p)
  && match name p with Some n => plain n | None => true end
  && plain (briefing_time p) && forallb plain (topics p)
  && plain (created_at p).

(** The rest of [s] after the text [pre]. *)
Fixpoint expect (pre s : string) : option string :=
  match pre, s with
  | EmptyString, _ => Some s
  | String a pre', String b s' => if Ascii.eqb a b then expect pre' s' else None
  | String _ _, EmptyString => None
  end.

(** The text up to the closing quote, and what follows the quote. *)
Fixpoint read_text (s : string) : option (string * string) :=
  match s with
  | EmptyString => None
  | String c rest =>
      if Ascii.eqb c "034"%char then Some ("", rest)
      else '(t, rest') ← read_text rest; Some (String c t, rest')
  end.

Definition read_name (s : string) : option (option string * string) :=
  match expect "null" s with
  | Some rest => Some (None, rest)
  | None => rest ← expect dq s; '(n, rest') ← read_text rest; Some (Some n, rest')
  end.

(** The items of a non-empty array of strings, up to its bracket. *)
Fixpoint read_items (fuel : nat) (s : string) : option (list string * string) :=
  match fuel with
  | O => None
  | S fuel' =>
      rest ← expect dq s;
      '(t, rest) ← read_text rest;
      match expect "]" rest with
      | Some rest' => Some ([t], rest')
      | None =>
          rest' ← expect ", " rest;
          '(ts, rest'') ← read_items fuel' rest';
          Some (t :: ts, rest'')
      end
  end.

Definition read_topics (s : string) : option (list string * string) :=
  match expect "]" s with
  | Some rest => Some ([], rest)
  | None => read_items (String.length s) s
  end.

(** A reader of the lines that [json_plain] writes: the inverse of
    [json_plain] on plain profiles; [UserProfile.parse_raw] reads these
    lines and more. *)
Definition parse_plain (line : string) : option UserProfile :=
  s ← expect ("{" +:+ quoted "version" +:+ ": " +:+ dq) line;
  '(version, s) ← read_text s;
  s ← expect (", " +:+ quoted "email" +:+ ": " +:+ dq) s;
  '(email, s) ← read_text s;
  s ← expect (", " +:+ quoted "name" +:+ ": ") s;
  '(name, s) ← read_name s;
  s ← expect (", " +:+ quoted "briefing_time" +:+ ": " +:+ dq) s;
  '(briefing_time, s) ← read_text s;
  s ← expect (", " +:+ quoted "topics" +:+ ": [") s;
  '(topics, s) ← read_topics s;
  s ← expect (", " +:+ quoted "created_at" +:+ ": " +:+ dq) s;
  '(created_at, s) ← read_text s;
  s ← expect "}" s;
  if blank_ascii s
  then Some {| version := version; email := email; name := name;
               briefing_time := briefing_time; topics := topics;
               created_at := created_at |}
  else None.

End Node1Backend.

(** ** node1_backend.py: the other endpoints *)

Module Node1Endpoints.
Import Py Node1Backend.

(** The truth value of a decoded JSON value in a condition. *)
Definition truthy (v : value) : bool :=
  match v with
  | VNone => false
  | VBool b => b
  | VInt n => negb (n =? 0)%Z
  | VFloat (S754_zero _) => false
  | VFloat _ => true
  | VStr s => negb (String.eqb s "")
  | VList xs => match xs with [] => false | _ :: _ => true end
  | VDict d => negb (Nat.eqb (size d) 0)
  end.

(** Whether [len(v)] returns; it raises [TypeError] for the other values. *)
Definition sized (v : value) : bool :=
  match v with
  | VStr _ | VList _ | VDict _ => true
  | _ => false
  end.

(** What an endpoint raises: an HTTP exception, which the handler of the
    application turns into a JSON answer, or a [TypeError], which it does
    not handle. *)
Inductive failure : Type :=
  | Http (e : http_exception)
  | TypeError.

Section answers.

(** [str()] of a value that is not a [str], as in [Prompts.str]. *)
Variable repr : value -> string.

(** [POST /api/unsubscribe]; the request is logged and nothing else
    happens. *)
Definition unsubscribe (data : gmap string value)
  : result failure (gmap string value) :=
  let email := get data "email" VNone in
  if negb (truthy email)
  then Raise (Http (HTTPException 400 "Email is required"))
  else Ok {[ "status" := VStr "success";
             "message" := VStr ("Unsubscribed " +:+ Prompts.str repr email) ]}.

(** [POST /api/preferences]; the log line takes [len(topics)]. *)
Definition update_preferences (data : gmap string value)
  : result failure (gmap string value) :=
  let email := get data "email" VNone in
  if negb (truthy email)
  then Raise (Http (HTTPException 400 "Email is required"))
  else
    let topics := get data "topics" (VList []) in
    if negb (truthy topics)
    then Raise (Http (HTTPException 400 "At least one topic is required"))
    else if sized topics
         then Ok {[ "status" := VStr "success";
                    "message" := VStr "Preferences updated" ]}
         else Raise TypeError.

End answers.

(** The answer of [GET /api/profiles]. *)
Record ProfilesResponse : Type := {
  status : string;
  count : Z;
  profiles : list UserProfile
}.

Section service.

Variable repr : value -> string.
Variable int : string -> option Z.
Variable blank : string -> bool.
Variable json : UserProfile -> string.
Variable parse_raw : string -> option UserProfile.

(** [GET /api/profiles] *)
Definition get_profiles_endpoint (file : string) : ProfilesResponse :=
  let profiles := Node1Backend.get_profiles blank parse_raw file in
  {| status := "success";
     count := Z.of_nat (length profiles);
     profiles := profiles |}.

(** A request to the intake service. *)
Inductive call : Type :=
  | Intake (io_ok : bool) (p : UserProfile)
  | Unsubscribe (data : gmap string value)
  | Preferences (data : gmap string value)
  | Profiles.

(** What the service answers. *)
Inductive answer : Type :=
  | Intaken (r : result http_exception IntakeResponse)
  | Acknowledged (r : result failure (gmap string value))
  | Listed (r : ProfilesResponse).

(** One request served on the text of the profile file. *)
Definition serve (c : call) (file : string) : answer * string :=
  match c with
  | Intake io_ok p =>
      let '(r, file') := create_intake int json io_ok p file in (Intaken r, file')
  | Unsubscribe data => (Acknowledged (unsubscribe repr data), file)
  | Preferences data => (Acknowledged (update_preferences data), file)
  | Profiles => (Listed (get_profiles_endpoint file), file)
  end.

(** The file after a sequence of requests. *)
Fixpoint serve_all (calls : list call) (file : string) : string :=
  match calls with
  | [] => file
  | c :: rest => serve_all rest (serve c file).2
  end.

(** The intake requests among the requests. *)
Definition intakes_of (calls : list call) : list (bool * UserProfile) :=
  omap (fun c => match c with Intake io_ok p => Some (io_ok, p) | _ => None end)
       calls.

End service.

(** A number below 100 on two digits. *)
Definition two_digits (n : nat) : string :=
  if (n <? 10)%nat then "0" +:+ pretty n else pretty n.

End Node1Endpoints.
(** ** node2_api.py: the other endpoints *)

Module Node2Endpoints.
Import Py BriefingGenerator Node2Api.

(** [GET /health]; [now] is [datetime.utcnow().isoformat()]. *)
Definition health (now : string) (js : job_status_t) : gmap string value :=
  {[ "status" := VStr "ok";
     "service" := VStr "AI Briefing Generator";
     "job_running" := VBool (running js);
     "last_run" := match last_run js with Some t => VStr t | None => VNone end;
     "timestamp" := VStr (now +:+ "Z") ]}.

(** *** The grouping loop of [preview_briefing] (lines 142-147) *)

(** A decoded JSON value that can be a dictionary key: all but lists and
    dictionaries. *)
Definition hashable (v : value) : bool :=
  match v with
  | VList _ | VDict _ => false
  | _ => true
  end.

(** The [TypeError] that a list or a dictionary raises when it is used as
    a dictionary key. *)
Inductive grouping_error : Type :=
  | Unhashable (key : value).

(** [a.get("source", "Unknown")] *)
Definition source_of (a : gmap string value) : value :=
  get a "source" (VStr "Unknown").

Section grouping.

(** Python's equality of two dictionary keys. *)
Variable key_eqb : value -> value -> bool.

(** [if src not in d: d[src] = []] followed by [d[src].append(a)], on a
    dictionary given by its items in insertion order. *)
Fixpoint add_to_source (d : list (value * list (gmap string value)))
    (src : value) (a : gmap string value)
  : list (value * list (gmap string value)) :=
  match d with
  | [] => [(src, [a])]
  | (k, articles) :: rest =>
      if key_eqb k src
      then (k, articles ++ [a]) :: rest
      else (k, articles) :: add_to_source rest src a
  end.

(** The loop [for a in processed], from the dictionary [d]. *)
Fixpoint group_processed (processed : list (gmap string value))
    (d : list (value * list (gmap string value)))
  : result grouping_error (list (value * list (gmap string value))) :=
  match processed with
  | [] => Ok d
  | a :: rest =>
      let src := source_of a in
      if hashable src
      then group_processed rest (add_to_source d src a)
      else Raise (Unhashable src)
  end.

(** What the loop keeps true of the groups [d] once it has put the
    articles [seen]: every key is the source of a seen article and holds
    the seen articles of that source in their order, no two keys are
    equal, and every seen article has the group of its source. *)
Definition grouped (seen : list (gmap string value))
    (d : list (value * list (gmap string value))) : Prop :=
  Forall (fun item =>
            (∃ a0, a0 ∈ seen ∧ item.1 = source_of a0)
            ∧ item.2 = filter (fun a => key_eqb item.1 (source_of a) = true) seen)
         d
  ∧ ForallOrdPairs (fun k k' => key_eqb k k' = false) d.*1
  ∧ ∀ a, a ∈ seen →
      Exists (fun item => key_eqb item.1 (source_of a) = true) d.

End grouping.

(** *** [GET /preview/{email}] *)

Section preview.
Context {World : Type}.

(** What the handler does: it acts on the outside world and returns or
    raises. *)
Definition action (A : Type) : Type := World -> result exn A * World.

Definition ret {A} (a : A) : action A := fun w => (Ok a, w).

Definition raise {A} (e : exn) : action A := fun w => (Raise e, w).

Definition bind {A B} (m : action A) (k : A -> action B) : action B :=
  fun w =>
    match m w with
    | (Ok a, w') => k a w'
    | (Raise e, w') => (Raise e, w')
    end.

(** A call of a collaborator, of which the handler catches no exception. *)
Definition call {A} (f : World -> result raised A * World) : action A :=
  fun w =>
    match f w with
    | (Ok a, w') => (Ok a, w')
    | (Raise e, w') => (Raise (Uncaught e), w')
    end.

(** The generator object and what the handler uses of it; these are
    defined in node2_briefing_generator and taken as they come. *)
Record generator : Type := {
  load_profiles : World -> result raised (list UserProfile) * World;
  fetch_articles :
    string -> World -> result raised (list (gmap string value)) * World;
  deduplicate :
    list (gmap string value) -> World
    -> result raised (list (gmap string value)) * World;
  filter_recent :
    list (gmap string value) -> Z -> World
    -> result raised (list (gmap string value)) * World;
  group_by_source :
    list (gmap string value) -> World
    -> result raised (gmap string (list (gmap string value))) * World;
  process_all_sites_parallel :
    gmap string (list (gmap string value)) -> list string -> World
    -> result raised (list (gmap string value)) * World;
  generate_landscape :
    list (value * list (gmap string value)) -> list string -> Z -> World
    -> result raised (option string) * World;
  select_top_5 :
    list (gmap string value) -> list string -> World
    -> result raised (list (gmap string value)) * World;
  generate_deep_dives :
    list (gmap string value) -> list string -> World
    -> result raised (list (gmap string value)) * World;
  compose_briefing_email :
    string -> UserProfile -> Briefing -> string -> World
    -> result raised string * World;
  template_path : string
}.

(** [BriefingGenerator(config)] *)
Variable new_generator : World -> result raised generator * World.

(** [(datetime.utcnow() - timedelta(hours=48)).strftime("%Y-%m-%d")] *)
Variable since_date : World -> string.

(** [datetime.utcnow().strftime("%B %d, %Y")] *)
Variable briefing_date : World -> string.

Variable key_eqb : value -> value -> bool.

(** [str(e)] of the [TypeError] of an unhashable key. *)
Variable unhashable_text : value -> string.

Definition preview_briefing (email : string) : action string :=
  bind (call new_generator) (fun g =>
  bind (call (load_profiles g)) (fun profiles =>
  match find (fun p => String.eqb (BriefingGenerator.email p) email) profiles with
  | None =>
      raise (Http (HTTPException 404 ("User " +:+ email +:+ " not found")))
  | Some user =>
      bind (fun w => (Ok (since_date w), w)) (fun since =>
      bind (call (fetch_articles g since)) (fun articles =>
      bind (call (deduplicate g articles)) (fun articles =>
      bind (call (filter_recent g articles 48)) (fun articles =>
      bind (call (group_by_source g articles)) (fun articles_by_source =>
      bind (call (process_all_sites_parallel g articles_by_source (topics user)))
        (fun processed =>
      match processed with
      | [] =>
          raise (Http (HTTPException 500 "No articles could be processed"))
      | _ :: _ =>
          match group_processed key_eqb processed [] with
          | Raise (Unhashable key) =>
              raise (Uncaught (Exception (unhashable_text key)))
          | Ok processed_by_source =>
          bind (call (generate_landscape g processed_by_source (topics user)
                        (Z.of_nat (length articles)))) (fun landscape =>
          bind (call (select_top_5 g processed (topics user))) (fun top5 =>
          bind (call (generate_deep_dives g processed (topics user)))
            (fun deep_dives =>
          let briefing :=
            build_briefing landscape top5 deep_dives processed
              articles_by_source in
          bind (fun w => (Ok (briefing_date w), w)) (fun date =>
          call (compose_briefing_email g (template_path g) user briefing date)))))
          end
      end))))))
  end)).

End preview.

End Node2Endpoints.

(** ** Sample data *)

Module Samples.
Import Py.

Definition article (source url title summary : string) : gmap string value :=
  {[ "source" := VStr source; "url" := VStr url;
     "title" := VStr title; "summary" := VStr summary ]}.

Definition processed : list (gmap string value) :=
  [ article "Feed A" "http://a.com/x" "Agents ship" "A vendor ships agents." ].

(** A deep dive citing one processed article and one URL of its own. *)
Definition invented : list (gmap string value) :=
  [ {[ "topic" := VStr "Agents";
       "hook" := VStr "Agents everywhere";
       "analysis" := VStr "What to watch.";
       "related_articles" :=
         VList [VStr "http://a.com/x"; VStr "http://made-up.example/y"] ]} ].

Definition one_deep_dive : list (gmap string value) :=
  [ {[ "topic" := VStr "Agents" ]} ].

Definition two_deep_dives : list (gmap string value) :=
  [ {[ "topic" := VStr "Agents"; "hook" := VStr "Agents everywhere" ]};
    {[ "topic" := VStr "Chips"; "analysis" := VStr "Supply is short." ]} ].

Definition by_source : gmap string (list (gmap string value)) :=
  {[ "Feed A" := [] ]}.

(** [str()] of the values that are not strings, as far as the samples go. *)
Definition repr (v : value) : string :=
  match v with
  | VNone => "None"
  | VBool true => "True"
  | VBool false => "False"
  | VInt n => pretty n
  | _ => "?"
  end.

Definition source_summaries : list (value * list (gmap string value)) :=
  [ (VStr "Feed A",
     [ article "Feed A" "http://a.com/1" "t1" "s1";
       article "Feed A" "http://a.com/2" "t2" "s2";
       article "Feed A" "http://a.com/3" "t3" "s3";
       article "Feed A" "http://a.com/4" "t4" "s4" ]);
    (VStr "Feed B", [ article "Feed B" "http://b.com/1" "u1" "v1" ]) ].

Definition utcnow (_ : unit) : string := "2025-01-01T06:00:00".

Definition three : list BriefingGenerator.RunResult :=
  [ {| BriefingGenerator.user_email := "ana@example.org";
       BriefingGenerator.status := "success";
       BriefingGenerator.error := None |};
    {| BriefingGenerator.user_email := "bo@example.org";
       BriefingGenerator.status := "failure";
       BriefingGenerator.error := Some "LLM call timed out" |};
    {| BriefingGenerator.user_email := "cy@example.org";
       BriefingGenerator.status := "success";
       BriefingGenerator.error := None |} ].

Definition run_ok (w : unit)
  : result Node2Api.raised (list BriefingGenerator.RunResult) * unit :=
  (Ok three, w).

Definition run_down (w : unit)
  : result Node2Api.raised (list BriefingGenerator.RunResult) * unit :=
  (Raise (Node2Api.Exception "Cannot connect to article service"), w).

Definition busy : Node2Api.job_status_t :=
  {| Node2Api.running := true;
     Node2Api.last_run := Some "2025-01-01T05:59:00Z";
     Node2Api.last_result := None |}.

Definition ana : Node1Backend.UserProfile :=
  {| Node1Backend.version := "1.0";
     Node1Backend.email := "ana@example.org";
     Node1Backend.name := Some "Ana";
     Node1Backend.briefing_time := "09:00";
     Node1Backend.topics := ["AI Agents"];
     Node1Backend.created_at := "2025-01-01T08:00:00Z" |}.

(** The same address again, with other preferences. *)
Definition ana_again : Node1Backend.UserProfile :=
  {| Node1Backend.version := "1.0";
     Node1Backend.email := "ana@example.org";
     Node1Backend.name := None;
     Node1Backend.briefing_time := "18:30";
     Node1Backend.topics := ["Robotics"; "Policy"];
     Node1Backend.created_at := "2025-01-02T08:00:00Z" |}.

(** A profile that the intake refuses for its briefing time. *)
Definition late : Node1Backend.UserProfile :=
  {| Node1Backend.version := "1.0";
     Node1Backend.email := "bo@example.org";
     Node1Backend.name := Some "Bo";
     Node1Backend.briefing_time := "25:00";
     Node1Backend.topics := ["Chips"];
     Node1Backend.created_at := "2025-01-02T09:00:00Z" |}.

(** A line that is no record. *)
Definition scribble : string := "not a record".
(** The server after a first request, and after its run of three users. *)
Definition started : Node2Api.server :=
  (Node2Api.arrive "2025-01-01T05:59:00" Node2Api.GenerateRequest_default
     Node2Api.server_init).2.

Definition finished : Node2Api.server :=
  (Node2Api.resume (Ok three) started).2.

(** The equality of two keys that are strings. *)
Definition same_source (k k' : value) : bool :=
  match k, k' with
  | VStr s, VStr s' => String.eqb s s'
  | _, _ => false
  end.

(** Processed articles of two feeds, the first feed twice. *)
Definition feed : list (gmap string value) :=
  [ article "Feed A" "http://a.com/1" "t1" "s1";
    article "Feed B" "http://b.com/1" "u1" "v1";
    article "Feed A" "http://a.com/2" "t2" "s2" ].

(** A collaborator that returns [a] and leaves its name in the log. *)
Definition logged {A} (what : string) (a : A) (log : list string)
  : result Node2Api.raised A * list string :=
  (Ok a, log ++ [what]).

Definition reader : BriefingGenerator.UserProfile :=
  {| BriefingGenerator.email := "ana@example.org";
     BriefingGenerator.name := Some "Ana";
     BriefingGenerator.briefing_time := "09:00";
     BriefingGenerator.topics := ["AI Agents"];
     BriefingGenerator.created_at := "2025-01-01T08:00:00Z" |}.

(** A generator of which every part returns; the processing returns
    [processed_out]. *)
Definition generator_of (processed_out : list (gmap string value))
  : Node2Endpoints.generator (World := list string) :=
  {| Node2Endpoints.load_profiles := logged "load_profiles" [reader];
     Node2Endpoints.fetch_articles := fun _ => logged "fetch_articles" feed;
     Node2Endpoints.deduplicate := fun articles => logged "deduplicate" articles;
     Node2Endpoints.filter_recent :=
       fun articles _ => logged "filter_recent" articles;
     Node2Endpoints.group_by_source :=
       fun _ => logged "group_by_source" by_source;
     Node2Endpoints.process_all_sites_parallel :=
       fun _ _ => logged "process_all_sites_parallel" processed_out;
     Node2Endpoints.generate_landscape :=
       fun _ _ _ => logged "generate_landscape" (Some "Agents everywhere.");
     Node2Endpoints.select_top_5 := fun articles _ => logged "select_top_5" articles;
     Node2Endpoints.generate_deep_dives :=
       fun _ _ => logged "generate_deep_dives" one_deep_dive;
     Node2Endpoints.compose_briefing_email :=
       fun _ user _ date =>
         logged "compose_briefing_email"
           ("Briefing of " +:+ date +:+ " for " +:+ BriefingGenerator.email user);
     Node2Endpoints.template_path := "templates/briefing.html" |}.

(** The preview over such a generator, on fixed dates. *)
Definition preview_of (processed_out : list (gmap string value))
    (email : string) (log : list string)
  : result Node2Api.exn string * list string :=
  Node2Endpoints.preview_briefing
    (logged "BriefingGenerator" (generator_of processed_out))
    (fun _ => "2025-01-01") (fun _ => "January 03, 2025") same_source
    (fun _ => "unhashable type") email log.

(** The calls of a preview that is returned, in their order. *)
Definition preview_log : list string :=
  [ "BriefingGenerator"; "load_profiles"; "fetch_articles"; "deduplicate";
    "filter_recent"; "group_by_source"; "process_all_sites_parallel";
    "generate_landscape"; "select_top_5"; "generate_deep_dives";
    "compose_briefing_email" ].

End Samples.

(** * Properties *)

(** ** The definitions on small inputs *)

Example int_literals :
  Node1Backend.int_ascii "09" = Some 9%Z
  ∧ Node1Backend.int_ascii " +1_0 " = Some 10%Z
  ∧ Node1Backend.int_ascii "-5" = Some (-5)%Z
  ∧ Node1Backend.int_ascii "1__0" = None
  ∧ Node1Backend.int_ascii "_1" = None
  ∧ Node1Backend.int_ascii "" = None
  ∧ Node1Backend.int_ascii "9h" = None
  ∧ Node1Backend.int_ascii "- 5" = None.
Proof. repeat split; reflexivity. Qed.

(** A line ends at a line feed, a carriage return or both; the last line
    may have no end. *)
Example lines_of_a_file :
  Node1Backend.file_lines
    ("a" +:+ Py.nl +:+ "b" +:+ String "013"%char Py.nl +:+ Py.nl
     +:+ "c" +:+ String "013"%char "d")
  = ["a" +:+ Py.nl; "b" +:+ Py.nl; Py.nl; "c" +:+ Py.nl; "d"]
  ∧ Node1Backend.file_lines "" = []
  ∧ Node1Backend.file_lines ("a" +:+ Py.nl) = ["a" +:+ Py.nl].
Proof. repeat split; reflexivity. Qed.

Example split_colon :
  Py.split ":" "09:00" = ["09"; "00"] ∧ Py.split ":" "9" = ["9"]
  ∧ Py.split ":" "1:2:3" = ["1"; "2"; "3"] ∧ Py.split ":" "" = [""].
Proof. repeat split; reflexivity. Qed.

Example briefing_times :
  let valid := Node1Backend.valid_briefing_time Node1Backend.int_ascii in
  valid "09:00" = true
  ∧ valid "23:59" = true
  ∧ valid "24:00" = false
  ∧ valid "12:60" = false
  ∧ valid "9" = false
  ∧ valid "1:2:3" = false
  ∧ valid "nine:00" = false.
Proof. repeat split; reflexivity. Qed.

(** The fourth article of the first source is not in the block. *)
Example summaries_block :
  Prompts.add_sources Samples.repr "" Samples.source_summaries
  = Py.Ok "
## Feed A
- t1: s1
- t2: s2
- t3: s3

## Feed B
- u1: v1
".
Proof. reflexivity. Qed.

(** An article without a summary among the first three stops the
    building of the prompt; after the third it is not looked at. *)
Example summaries_key_error :
  Prompts.build_landscape_prompt Samples.repr []
    [(Py.VStr "Feed A", [ {[ "title" := Py.VStr "t" ]} ])] 1
  = Py.Raise (Prompts.KeyError "summary")
  ∧ Prompts.add_sources Samples.repr ""
      [(Py.VStr "Feed A",
        [ Samples.article "Feed A" "u1" "t1" "s1";
          Samples.article "Feed A" "u2" "t2" "s2";
          Samples.article "Feed A" "u3" "t3" "s3";
          {[ "title" := Py.VStr "t" ]} ])]
    = Py.Ok "
## Feed A
- t1: s1
- t2: s2
- t3: s3
".
Proof. split; reflexivity. Qed.

Example two_intakes_one_refused :
  Node1Backend.intakes Node1Backend.int_ascii Node1Backend.json_plain
    [(true, Samples.late); (true, Samples.ana_again)] ""
  = Node1Backend.json_plain Samples.ana_again +:+ Py.nl
  ∧ Node1Backend.parse_plain (Node1Backend.json_plain Samples.ana_again +:+ Py.nl)
    = Some Samples.ana_again.
Proof. split; reflexivity. Qed.

Example rejected_while_running :
  Node2Api.acquire "2025-01-01T06:00:00" Samples.busy = Py.Raise Node2Api.conflict
  ∧ Node2Api.acquire "2025-01-01T06:00:00" Node2Api.job_status
    = Py.Ok {| Node2Api.running := true;
               Node2Api.last_run := Some "2025-01-01T06:00:00Z";
               Node2Api.last_result := None |}.
Proof. split; reflexivity. Qed.

Example summary_of_three :
  (Node2Api.settle (Py.Ok Samples.three) Samples.busy).1
  = Py.Ok {| Node2Api.status := "completed";
             Node2Api.message := "Generated briefings for 3 users";
             Node2Api.users_processed := 3;
             Node2Api.successful := 2;
             Node2Api.failed := 1 |}.
Proof. reflexivity. Qed.

(** ** Strings *)

Lemma append_assoc (a b c : string) : (a +:+ b) +:+ c = a +:+ b +:+ c.
Proof.
  induction a as [|x a IH]; [reflexivity|].
  change (String x ((a +:+ b) +:+ c) = String x (a +:+ b +:+ c)).
  by rewrite IH.
Qed.

Lemma append_nil_r (a : string) : a +:+ "" = a.
Proof.
  induction a as [|x a IH]; [reflexivity|].
  change (String x (a +:+ "") = String x a).
  by rewrite IH.
Qed.

Lemma length_append (a b : string) :
  String.length (a +:+ b) = String.length a + String.length b.
Proof.
  induction a as [|x a IH]; [reflexivity|].
  change (S (String.length (a +:+ b)) = S (String.length a + String.length b)).
  by rewrite IH.
Qed.

(** ** The briefing built for the preview *)

Section briefing_facts.
Import Py BriefingGenerator Node2Api.

Implicit Types (dds processed : list (gmap string value)).
Implicit Types (abs : gmap string (list (gmap string value))).

Lemma ranks_consecutive {A} (l : list A) :
  imap (fun i _ => (Z.of_nat i + 1)%Z) l = Z.of_nat <$> seq 1 (length l).
Proof.
  apply list_eq; intros i.
  rewrite list_lookup_imap, list_lookup_fmap.
  destruct (l !! i) as [a|] eqn:Hi; simpl.
  - apply lookup_lt_Some in Hi.
    rewrite lookup_seq_lt; [|done]. simpl. f_equal. lia.
  - apply lookup_ge_None in Hi.
    rewrite lookup_seq_ge; [done|lia].
Qed.

Lemma top5_rank_column landscape (top5 : list (gmap string value)) dds processed abs :
  rank <$> top_5 (build_briefing landscape top5 dds processed abs)
  = Z.of_nat <$> seq 1 (Nat.min 5 (length top5)).
Proof.
  rewrite <- length_take, <- ranks_consecutive.
  apply list_eq; intros i. simpl.
  rewrite list_lookup_fmap, !list_lookup_imap.
  by destruct (take 5 top5 !! i).
Qed.

(** C6: the briefing's top 5 is the list returned by the model's
    ranking, cut after its fifth entry and in the same order: it has
    min(5, k) entries, the ranks are 1, 2, ..., N with N = min(5, k), and
    the entry at index [i] has rank [i+1] and carries the values that the
    returned entry has under its own keys (the source's default where
    the entry lacks the key). *)
Theorem top5_as_ranked landscape (top5 : list (gmap string value)) dds processed abs :
  let b := build_briefing landscape top5 dds processed abs in
  length (top_5 b) = Nat.min 5 (length top5)
  ∧ rank <$> top_5 b = Z.of_nat <$> seq 1 (Nat.min 5 (length top5))
  ∧ ∀ (i : nat) (a : gmap string value),
      top5 !! i = Some a → (i < 5)%nat →
      ∃ entry,
        top_5 b !! i = Some entry
        ∧ rank entry = (Z.of_nat i + 1)%Z
        ∧ source entry = default (VStr "") (a !! "source")
        ∧ url entry = default (VStr "") (a !! "url")
        ∧ title entry = default (VStr "") (a !! "title")
        ∧ summary entry = default (VStr "") (a !! "summary")
        ∧ relevance entry = default (VInt 0) (a !! "relevance")
        ∧ keywords entry = default (VList []) (a !! "keywords")
        ∧ why_selected entry = default (VStr "") (a !! "why_selected").
Proof.
  intros b. split; [|split].
  - subst b. simpl. by rewrite length_imap, length_take.
  - apply top5_rank_column.
  - intros i a Ha Hi. subst b. simpl.
    rewrite list_lookup_imap, lookup_take_lt by done. rewrite Ha. simpl.
    eexists. split; [reflexivity|]. by repeat split.
Qed.

(** C1 (as amended): the related articles of each stored deep dive are
    the [related_articles] value of the deep dive returned by the stage
    (the empty list when it has none), unchanged and unchecked; so the
    stored deep dives are grounded in the processed articles exactly
    when the first three returned ones are. *)
Theorem related_articles_verbatim landscape (top5 : list (gmap string value))
    dds processed abs :
  let b := build_briefing landscape top5 dds processed abs in
  related_articles <$> deep_dives b
  = (fun d => get d "related_articles" (VList [])) <$> take 3 dds
  ∧ (Forall (grounded processed) (deep_dives b)
     ↔ Forall (cites_only processed) (take 3 dds)).
Proof.
  intros b. subst b. simpl. split.
  - by rewrite <- list_fmap_compose.
  - rewrite Forall_fmap. apply Forall_iff. intros d. reflexivity.
Qed.

(** C1 (as stated) fails: a returned deep dive that cites a URL of no
    processed article is stored with that URL. *)
Lemma ungrounded_url_stored :
  let b := build_briefing (Some "text") [] Samples.invented
             Samples.processed Samples.by_source in
  ∃ d, d ∈ deep_dives b
       ∧ VStr "http://made-up.example/y" ∈ cited d
       ∧ VStr "http://made-up.example/y" ∉ processed_urls Samples.processed.
Proof.
  eexists. split; [|split].
  - vm_compute. apply list_elem_of_here.
  - vm_compute. apply list_elem_of_further, list_elem_of_here.
  - vm_compute. intros H. apply list_elem_of_singleton in H. discriminate H.
Qed.



End briefing_facts.

(** ** The landscape prompt *)

Section landscape_facts.
Import Py Prompts.

Variable repr : value -> string.

Lemma add_bullets_lines articles : ∀ text text',
  add_bullets repr text articles = Ok text' →
  ∃ lines, Forall2 (bullet_line repr) articles lines
           ∧ text' = text +:+ foldr String.append "" lines.
Proof.
  induction articles as [|a rest IH]; intros text text' H; simpl in H.
  - inversion H; subst. exists []. split; [constructor|].
    simpl. by rewrite append_nil_r.
  - unfold getitem in H.
    destruct (a !! "title") as [title|] eqn:Ht; simpl in H; [|discriminate].
    destruct (a !! "summary") as [summary|] eqn:Hs; simpl in H; [|discriminate].
    apply IH in H as (lines & Hl & ->).
    exists (("- " +:+ str repr title +:+ ": " +:+ str repr summary +:+ nl) :: lines).
    split.
    + constructor; [|done]. by exists title, summary.
    + simpl foldr. by rewrite !append_assoc.
Qed.

Lemma add_sources_blocks items : ∀ text text',
  add_sources repr text items = Ok text' →
  ∃ blocks,
    Forall2 (fun item block =>
               ∃ lines, length lines = Nat.min 3 (length item.2)
                        ∧ Forall2 (bullet_line repr) (take 3 item.2) lines
                        ∧ block = heading repr item.1
                                  +:+ foldr String.append "" lines)
            items blocks
    ∧ text' = text +:+ foldr String.append "" blocks.
Proof.
  induction items as [|[source articles] rest IH]; intros text text' H; simpl in H.
  - inversion H; subst. exists []. split; [constructor|].
    simpl. by rewrite append_nil_r.
  - destruct (add_bullets repr _ (take 3 articles)) as [text1|e] eqn:Hb;
      simpl in H; [|discriminate].
    apply add_bullets_lines in Hb as (lines & Hl & ->).
    apply IH in H as (blocks & Hbs & ->).
    exists ((heading repr source +:+ foldr String.append "" lines) :: blocks).
    split.
    + constructor; [|done]. exists lines. simpl. split; [|done].
      apply Forall2_length in Hl. by rewrite <- Hl, length_take.
    + simpl foldr. unfold heading. by rewrite !append_assoc.
Qed.

Lemma add_sources_first_three items : ∀ text,
  add_sources repr text (first_three items) = add_sources repr text items.
Proof.
  induction items as [|[source articles] rest IH]; intros text; simpl; [done|].
  rewrite take_take, Nat.min_id.
  destruct (add_bullets repr _ (take 3 articles)); simpl; [apply IH | done].
Qed.

(** C8: the landscape prompt is the same as that of the sources cut to
    their first three articles each, whatever comes after the third; and
    when the prompt is built, its summaries block is, source by source in
    the order of the mapping, the heading of the source followed by one
    line for each of its first min(3, n) articles, so at most three. *)
Theorem landscape_top_three_per_source user_topics source_summaries total_articles :
  build_landscape_prompt repr user_topics source_summaries total_articles
  = build_landscape_prompt repr user_topics (first_three source_summaries)
      total_articles
  ∧ ∀ system user,
      build_landscape_prompt repr user_topics source_summaries total_articles
      = Ok (system, user) →
      ∃ blocks,
        Forall2 (fun item block =>
                   ∃ lines, length lines = Nat.min 3 (length item.2)
                            ∧ Forall2 (bullet_line repr) (take 3 item.2) lines
                            ∧ block = heading repr item.1
                                      +:+ foldr String.append "" lines)
                source_summaries blocks
        ∧ user = LANDSCAPE_USER (Z.of_nat (length source_summaries))
                   total_articles (foldr String.append "" blocks).
Proof.
  split.
  - unfold build_landscape_prompt.
    rewrite add_sources_first_three. unfold first_three.
    by rewrite length_fmap.
  - intros system user H. unfold build_landscape_prompt in H.
    destruct (add_sources repr "" source_summaries) as [text|e] eqn:Hs;
      simpl in H; [|discriminate].
    apply add_sources_blocks in Hs as (blocks & Hbs & ->).
    exists blocks. split; [done|]. by inversion H.
Qed.

End landscape_facts.

(** ** The run over the registered profiles *)

Section run_facts.
Import BriefingGenerator.
Context {World : Type}.
Variable perform : stage -> UserProfile -> World -> (string + unit) * World.

Lemma run_user_for p w :
  user_email (run_user perform p w).1 = email p
  ∧ settled (run_user perform p w).1.
Proof.
  unfold run_user, settled.
  destruct (pipeline perform p w) as [[e|[]] w']; simpl; eauto.
Qed.

Lemma run_loop_results profiles : ∀ w results,
  user_email <$> (run_loop perform profiles w results).1
  = (user_email <$> results) ++ (email <$> profiles)
  ∧ (Forall settled results →
     Forall settled (run_loop perform profiles w results).1).
Proof.
  induction profiles as [|p rest IH]; intros w results; simpl.
  - by rewrite app_nil_r.
  - destruct (run_user_for p w) as [Hmail Hst].
    destruct (run_user perform p w) as [r w']. simpl in Hmail, Hst.
    destruct (IH w' (results ++ [r])) as [IH1 IH2]. split.
    + rewrite IH1, fmap_app, <- app_assoc. simpl. by rewrite Hmail.
    + intros Hall. apply IH2, Forall_app. split; [done|].
      by constructor.
Qed.

(** C2: for N registered profiles, whatever the pipelines of the users
    do, [run] returns N results, the i-th being that of the i-th profile,
    each either a success or a failure carrying the captured error. *)
Theorem run_one_result_per_profile profiles w :
  let results := (run perform profiles w).1 in
  length results = length profiles
  ∧ user_email <$> results = email <$> profiles
  ∧ Forall settled results.
Proof.
  intros results. subst results. unfold run.
  destruct (run_loop_results profiles w []) as [Hmail Hst].
  split; [|split].
  - rewrite <- (length_fmap user_email), Hmail. simpl. by rewrite length_fmap.
  - exact Hmail.
  - apply Hst. constructor.
Qed.

End run_facts.

(** ** The trigger [POST /generate] *)

Section generate_facts.
Import Py BriefingGenerator Node2Api.
Context {World : Type}.
Variable utcnow : World -> string.
Variable run : World -> result raised (list RunResult) * World.

Lemma settle_releases outcome js : running (settle outcome js).2 = false.
Proof. by destruct outcome as [results|[s|s]]. Qed.

Lemma acquire_free now js :
  running js = false →
  ∃ js1, acquire now js = Ok js1 ∧ running js1 = true.
Proof. intros H. unfold acquire. rewrite H. eauto. Qed.

Lemma acquire_busy now js :
  running js = true → acquire now js = Raise conflict.
Proof. intros H. unfold acquire. by rewrite H. Qed.

(** The flag is set exactly while one handler is suspended in its run,
    and no two handlers ever are. *)
Lemma one_run_at_a_time s :
  reachable s → awaiting s = if running (job s) then 1 else 0.
Proof.
  induction 1 as [|s s' _ IH Hstep]; [done|].
  destruct Hstep as [now request s|outcome s Hpos].
  - unfold arrive, acquire.
    destruct (running (job s)) eqn:Hr; simpl; [by rewrite Hr|].
    by rewrite IH.
  - unfold resume.
    pose proof (settle_releases outcome (job s)) as Hrel.
    destruct (settle outcome (job s)) as [reply js2]. simpl in *.
    rewrite Hrel, IH. by destruct (running (job s)).
Qed.

Lemma run_in_progress s :
  reachable s → (0 < awaiting s)%nat → running (job s) = true.
Proof.
  intros Hs Hpos. apply one_run_at_a_time in Hs.
  destruct (running (job s)); [done | lia].
Qed.

(** C3: while the flag is set the handler raises HTTP 409 at once:
    the run is not called, the status and the outside world are left as
    they were; and in every state the server can reach in which a handler
    is suspended in its run, the flag is set and an arriving request is
    rejected in this way, no second handler reaching the run. *)
Theorem generate_conflict request js w :
  running js = true →
  generate_briefings utcnow run request js w = (Raise conflict, js, w)
  ∧ ∀ s now, reachable s → (0 < awaiting s)%nat →
      running (job s) = true
      ∧ arrive now request s = (Some conflict, s).
Proof.
  intros Hrun. split.
  - unfold generate_briefings. by rewrite (acquire_busy _ _ Hrun).
  - intros s now Hs Hpos.
    pose proof (run_in_progress s Hs Hpos) as Hflag. split; [done|].
    unfold arrive. by rewrite (acquire_busy _ _ Hflag).
Qed.

(** C4: a handler that passes the conflict test sets the flag before it
    calls the run, and whatever the run does (return, raise an exception
    that the handler turns into HTTP 500, raise one that it lets
    through) the flag is false when the handler has finished; in the
    server, the end of a suspended handler leaves the flag false and no
    handler in a run. *)
Theorem flag_acquired_then_released request js w :
  running js = false →
  (∃ js1, acquire (utcnow w) js = Ok js1 ∧ running js1 = true
          ∧ generate_briefings utcnow run request js w
            = (let '(outcome, w') := run w in
               let '(reply, js2) := settle outcome js1 in (reply, js2, w')))
  ∧ running (generate_briefings utcnow run request js w).1.2 = false
  ∧ (∀ outcome js1, running (settle outcome js1).2 = false)
  ∧ ∀ s outcome, reachable s → (0 < awaiting s)%nat →
      running (job (resume outcome s).2) = false
      ∧ awaiting (resume outcome s).2 = 0.
Proof.
  intros Hfree. split; [|split; [|split]].
  - destruct (acquire_free (utcnow w) js Hfree) as (js1 & Hacq & Hset).
    exists js1. split; [done|]. split; [done|].
    unfold generate_briefings. by rewrite Hacq.
  - destruct (acquire_free (utcnow w) js Hfree) as (js1 & Hacq & _).
    unfold generate_briefings. rewrite Hacq.
    destruct (run w) as [outcome w'].
    pose proof (settle_releases outcome js1) as Hrel.
    by destruct (settle outcome js1).
  - apply settle_releases.
  - intros s outcome Hs Hpos.
    pose proof (one_run_at_a_time s Hs) as Hone.
    rewrite (run_in_progress s Hs Hpos) in Hone.
    unfold resume.
    pose proof (settle_releases outcome (job s)) as Hrel.
    destruct (settle outcome (job s)) as [reply js2]. simpl in *.
    split; [done | by rewrite Hone].
Qed.

Lemma count_success_le results :
  (0 ≤ count_success results ≤ Z.of_nat (length results))%Z.
Proof.
  unfold count_success.
  pose proof (length_filter (fun r => BriefingGenerator.status r = "success")
                results). lia.
Qed.

(** C5 (as amended): a request that passes the conflict test and whose
    run returns gets the summary: status completed, the message with the
    number of results, [users_processed] the number of results,
    [successful] the number of those with status success, [failed] the
    rest; when the run raises an instance of [Exception], the handler
    raises HTTP 500 with the text of that exception; an exception
    outside that class (a cancellation, a keyboard interrupt) passes
    through the handler as it is, and no HTTP 500 is raised for it. *)
Theorem generate_summary request js w :
  running js = false →
  (∀ results w', run w = (Ok results, w') →
     ∃ response js',
       generate_briefings utcnow run request js w = (Ok response, js', w')
       ∧ status response = "completed"
       ∧ message response
         = "Generated briefings for " +:+ pretty (length results) +:+ " users"
       ∧ users_processed response = Z.of_nat (length results)
       ∧ successful response
         = Z.of_nat (length (filter (fun r => BriefingGenerator.status r = "success")
                               results))
       ∧ failed response = (users_processed response - successful response)%Z
       ∧ (0 ≤ failed response)%Z)
  ∧ (∀ text w', run w = (Raise (Exception text), w') →
     (generate_briefings utcnow run request js w).1.1
     = Raise (Http (HTTPException 500 text)))
  ∧ (∀ text w', run w = (Raise (BaseException text), w') →
     (generate_briefings utcnow run request js w).1.1
     = Raise (Uncaught (BaseException text))).
Proof.
  intros Hfree.
  destruct (acquire_free (utcnow w) js Hfree) as (js1 & Hacq & _).
  unfold generate_briefings. rewrite Hacq. split; [|split].
  - intros results w' Hrun. rewrite Hrun. simpl.
    eexists _, _. split; [reflexivity|]. simpl.
    pose proof (count_success_le results). repeat split; lia.
  - intros text w' Hrun. by rewrite Hrun.
  - intros text w' Hrun. by rewrite Hrun.
Qed.

(** C10: the handler does not read its request: two requests, whatever
    their [email] and [send_email], give from the same status and the
    same outside world the same run, the same reply and the same final
    state; an arriving request is admitted or rejected alike. *)
Theorem generate_ignores_request request1 request2 js w :
  generate_briefings utcnow run request1 js w
  = generate_briefings utcnow run request2 js w
  ∧ ∀ now s, arrive now request1 s = arrive now request2 s.
Proof. split; reflexivity. Qed.

End generate_facts.

(** ** The text of a profile and its reader *)

Section codec_facts.
Import Py Node1Backend.

Local Arguments String.concat : simpl never.

Lemma quoted_app (s rest : string) : quoted s +:+ rest = dq +:+ s +:+ dq +:+ rest.
Proof. unfold quoted. by rewrite !append_assoc. Qed.

Lemma expect_peel (a b c : string) : expect (a +:+ b) (a +:+ c) = expect b c.
Proof.
  induction a as [|x a IH]; [reflexivity|].
  change (expect (String x (a +:+ b)) (String x (a +:+ c)) = expect b c).
  simpl. by rewrite Ascii.eqb_refl.
Qed.

Lemma expect_last (a c : string) : expect a (a +:+ c) = Some c.
Proof.
  rewrite <- (append_nil_r a) at 1. rewrite expect_peel. reflexivity.
Qed.

Lemma plain_not_quote (c : ascii) :
  plain_char c = true → Ascii.eqb c "034"%char = false.
Proof.
  intros H. destruct (Ascii.eqb_spec c "034"%char) as [->|]; [|done].
  vm_compute in H. discriminate.
Qed.

Lemma read_text_app (t rest : string) :
  plain t = true → read_text (t +:+ dq +:+ rest) = Some (t, rest).
Proof.
  induction t as [|c t IH]; intros H; [reflexivity|].
  change (plain_char c && plain t = true) in H.
  apply andb_true_iff in H as [Hc Ht].
  change (read_text (String c (t +:+ dq +:+ rest)) = Some (String c t, rest)).
  simpl. rewrite (plain_not_quote c Hc), (IH Ht). reflexivity.
Qed.

Lemma read_items_app (ts : list string) : ∀ fuel t rest,
  length ts < fuel → plain t = true → forallb plain ts = true →
  read_items fuel (String.concat ", " (quoted <$> t :: ts) +:+ "]" +:+ rest)
  = Some (t :: ts, rest).
Proof.
  induction ts as [|u us IH]; intros fuel t rest Hfuel Ht Hts;
    (destruct fuel as [|fuel]; [lia|]).
  - change (String.concat ", " (quoted <$> [t])) with (quoted t).
    rewrite quoted_app. cbn [read_items].
    rewrite expect_last. simpl. rewrite read_text_app by done. simpl.
    reflexivity.
  - change (String.concat ", " (quoted <$> t :: u :: us))
      with (quoted t +:+ ", " +:+ String.concat ", " (quoted <$> u :: us)).
    rewrite quoted_app, !append_assoc. cbn [read_items].
    rewrite expect_last. simpl. rewrite read_text_app by done. simpl.
    apply andb_true_iff in Hts as [Hu Hus].
    change ("" +:+ ?x) with x.
    assert (length us < fuel) as Hless by (simpl in Hfuel; lia).
    specialize (IH fuel u rest Hless Hu Hus). simpl in IH.
    rewrite IH. reflexivity.
Qed.

Lemma items_longer (ts : list string) : ∀ t rest,
  length ts
  < String.length (String.concat ", " (quoted <$> t :: ts) +:+ "]" +:+ rest).
Proof.
  induction ts as [|u us IH]; intros t rest.
  - rewrite !length_append. simpl. lia.
  - change (String.concat ", " (quoted <$> t :: u :: us))
      with (quoted t +:+ ", " +:+ String.concat ", " (quoted <$> u :: us)).
    rewrite !append_assoc, length_append, length_append.
    specialize (IH u rest). simpl in *. lia.
Qed.

Lemma read_topics_app (ts : list string) (rest : string) :
  forallb plain ts = true →
  read_topics (String.concat ", " (quoted <$> ts) +:+ "]" +:+ rest)
  = Some (ts, rest).
Proof.
  intros Hts. destruct ts as [|t ts]; [reflexivity|].
  apply andb_true_iff in Hts as [Ht Hts].
  unfold read_topics.
  replace (expect "]" (String.concat ", " (quoted <$> t :: ts) +:+ "]" +:+ rest))
    with (@None string).
  - apply read_items_app; [apply items_longer | done | done].
  - destruct ts; reflexivity.
Qed.

Lemma read_name_app (n : option string) (rest : string) :
  match n with Some s => plain s = true | None => True end →
  read_name (match n with Some s => quoted s | None => "null" end +:+ rest)
  = Some (n, rest).
Proof.
  destruct n as [s|]; intros H; [|reflexivity].
  rewrite quoted_app. unfold read_name.
  change (expect "null" (dq +:+ ?x)) with (@None string).
  rewrite expect_last. simpl. by rewrite read_text_app.
Qed.

Lemma one_line_app (a b : string) :
  one_line (a +:+ b) = one_line a && one_line b.
Proof.
  induction a as [|x a IH]; [reflexivity|].
  change (one_line (String x (a +:+ b))
          = one_line (String x a) && one_line b).
  unfold one_line in *. simpl. rewrite IH. by rewrite andb_assoc.
Qed.

Lemma plain_one_line (s : string) : plain s = true → one_line s = true.
Proof.
  induction s as [|c s IH]; [done|].
  change (plain_char c && plain s = true → one_line (String c s) = true).
  intros [Hc Hs]%andb_true_iff. unfold one_line in *. simpl.
  rewrite (IH Hs), andb_true_r.
  destruct (Ascii.eqb_spec c "010"%char) as [->|]; [by vm_compute in Hc|].
  destruct (Ascii.eqb_spec c "013"%char) as [->|]; [by vm_compute in Hc|].
  done.
Qed.

Lemma quoted_one_line (s : string) : plain s = true → one_line (quoted s) = true.
Proof.
  intros H. unfold quoted. rewrite !one_line_app, (plain_one_line s H). done.
Qed.

Lemma items_one_line (ts : list string) :
  forallb plain ts = true →
  one_line (String.concat ", " (quoted <$> ts)) = true.
Proof.
  induction ts as [|t ts IH]; [done|].
  intros [Ht Hts]%andb_true_iff. destruct ts as [|u us].
  - by apply quoted_one_line.
  - change (String.concat ", " (quoted <$> t :: u :: us))
      with (quoted t +:+ ", " +:+ String.concat ", " (quoted <$> u :: us)).
    rewrite !one_line_app, (quoted_one_line t Ht), (IH Hts). done.
Qed.

Lemma json_plain_one_line (p : UserProfile) :
  plain_profile p = true → one_line (json_plain p) = true.
Proof.
  intros H. unfold plain_profile in H.
  repeat (apply andb_true_iff in H as [H ?]).
  unfold json_plain. rewrite !one_line_app.
  rewrite !quoted_one_line, items_one_line by done.
  destruct (name p) as [n|]; [rewrite quoted_one_line by done|]; reflexivity.
Qed.

(** A plain profile is written on one line and read back from it. *)
Lemma parse_plain_json (p : UserProfile) :
  plain_profile p = true → reads_back blank_ascii json_plain parse_plain p.
Proof.
  intros H. split; [by apply json_plain_one_line|]. split; [reflexivity|].
  unfold plain_profile in H.
  repeat (apply andb_true_iff in H as [H ?]).
  unfold parse_plain, json_plain.
  rewrite !append_assoc, !quoted_app, ?append_assoc.
  repeat first
    [ rewrite expect_peel
    | rewrite expect_last
    | rewrite read_text_app by done
    | rewrite read_name_app by (by destruct (name p))
    | rewrite read_topics_app by done
    | progress change ("" +:+ ?x) with x
    | progress simpl ].
  by destruct p.
Qed.

End codec_facts.

(** ** The profile store *)

Section store_facts.
Import Py Node1Backend.
Variable int : string -> option Z.
Variable blank : string -> bool.
Variable json : UserProfile -> string.
Variable parse_raw : string -> option UserProfile.

Lemma append_cons (c : ascii) (s t : string) :
  String c s +:+ t = String c (s +:+ t).
Proof. reflexivity. Qed.

Lemma accepted_intake io_ok p file :
  accepted int io_ok p = true →
  (create_intake int json io_ok p file).2 = file +:+ json p +:+ nl.
Proof.
  unfold accepted, create_intake, write_profile. intros H.
  destruct io_ok; [|discriminate]. simpl in H.
  destruct (String.eqb (email p) ""); [discriminate|]. simpl in H.
  destruct (valid_briefing_time int (briefing_time p)); [|discriminate].
  simpl in *. by destruct (topics p).
Qed.

Lemma refused_intake io_ok p file :
  accepted int io_ok p = false →
  (create_intake int json io_ok p file).2 = file.
Proof.
  unfold accepted, create_intake, write_profile. intros H.
  destruct (String.eqb (email p) ""); [done|].
  destruct (valid_briefing_time int (briefing_time p)); [|done]. simpl.
  destruct (topics p); [done|].
  destruct io_ok; [discriminate | done].
Qed.

(** The accepted requests are those answered with a success. *)
Lemma accepted_answer io_ok p file :
  accepted int io_ok p = true
  ↔ ∃ response, (create_intake int json io_ok p file).1 = Ok response.
Proof.
  unfold accepted, create_intake, write_profile.
  destruct io_ok, (String.eqb (email p) ""),
    (valid_briefing_time int (briefing_time p)), (topics p); simpl;
    (split; [intros H; by (discriminate H || eauto) | intros [r Hr]; done]).
Qed.

(** The file after a sequence of requests: one record more for each
    accepted request. *)
Lemma intakes_append requests : ∀ file,
  intakes int json requests file
  = file +:+ records json (accepted_profiles int requests).
Proof.
  unfold accepted_profiles.
  induction requests as [|[io_ok p] rest IH]; intros file; simpl.
  - by rewrite append_nil_r.
  - rewrite IH. destruct (accepted int io_ok p) eqn:Hacc.
    + rewrite accepted_intake by done.
      rewrite filter_cons_True by done. simpl. by rewrite !append_assoc.
    + rewrite refused_intake by done.
      rewrite filter_cons_False; [done|]. simpl. by rewrite Hacc.
Qed.

Lemma lines_not_empty (s : string) : file_lines_from false (s +:+ nl) ≠ [].
Proof.
  destruct s as [|c s]; [done|]. rewrite append_cons. simpl.
  destruct (Ascii.eqb c "010"%char); [done|].
  destruct (Ascii.eqb c "013"%char); [done|].
  by destruct (file_lines_from false (s +:+ nl)).
Qed.

(** After a line feed the lines of what follows are read on their own. *)
Lemma lines_after_feed (s : string) : ∀ after_cr rest,
  file_lines_from after_cr ((s +:+ nl) +:+ rest)
  = file_lines_from after_cr (s +:+ nl) ++ file_lines rest.
Proof.
  induction s as [|c s IH]; intros after_cr rest.
  - change (("" +:+ nl) +:+ rest) with (String "010"%char rest).
    change ("" +:+ nl) with (String "010"%char "").
    by destruct after_cr.
  - rewrite !append_cons. simpl.
    destruct (Ascii.eqb c "010"%char).
    { destruct after_cr; by rewrite IH. }
    destruct (Ascii.eqb c "013"%char); [by rewrite IH|].
    rewrite IH. pose proof (lines_not_empty s) as Hne.
    by destruct (file_lines_from false (s +:+ nl)).
Qed.

Lemma lines_of_one (s : string) :
  one_line s = true → file_lines (s +:+ nl) = [s +:+ nl].
Proof.
  unfold file_lines. induction s as [|c s IH]; intros H; [done|].
  change (negb (Ascii.eqb c "010"%char) && negb (Ascii.eqb c "013"%char)
          && one_line s = true) in H.
  apply andb_true_iff in H as [Hc Hs].
  apply andb_true_iff in Hc as [Hlf Hcr].
  rewrite append_cons. simpl.
  destruct (Ascii.eqb c "010"%char); [done|].
  destruct (Ascii.eqb c "013"%char); [done|].
  by rewrite (IH Hs).
Qed.

Lemma lines_of_records ps :
  Forall (fun p => one_line (json p) = true) ps →
  file_lines (records json ps) = (fun p => json p +:+ nl) <$> ps.
Proof.
  induction ps as [|p ps IH]; intros H; [done|].
  apply Forall_cons in H as [Hp Hps]. simpl.
  rewrite <- append_assoc. unfold file_lines at 1.
  rewrite lines_after_feed. fold (file_lines (json p +:+ nl)).
  by rewrite (lines_of_one _ Hp), (IH Hps).
Qed.

(** On a file that ends with a line feed the records written are read
    as lines of their own. *)
Lemma lines_of_appended file ps :
  terminated file →
  Forall (fun p => one_line (json p) = true) ps →
  file_lines (file +:+ records json ps)
  = file_lines file ++ ((fun p => json p +:+ nl) <$> ps).
Proof.
  intros [->|[body ->]] Hps.
  - by apply lines_of_records.
  - unfold file_lines at 1. rewrite lines_after_feed.
    by rewrite (lines_of_records ps Hps).
Qed.

Lemma read_lines_acc lines : ∀ profiles,
  read_lines blank parse_raw lines profiles
  = profiles ++ read_lines blank parse_raw lines [].
Proof.
  induction lines as [|line rest IH]; intros profiles; simpl.
  - by rewrite app_nil_r.
  - destruct (blank line); [apply IH|].
    destruct (parse_raw line) as [p|]; [|by rewrite app_nil_r].
    rewrite IH, (IH [p]). by rewrite <- app_assoc.
Qed.

Lemma read_lines_app old new : ∀ profiles,
  Forall (readable blank parse_raw) old →
  read_lines blank parse_raw (old ++ new) profiles
  = read_lines blank parse_raw new (read_lines blank parse_raw old profiles).
Proof.
  induction old as [|line rest IH]; intros profiles Hold; simpl; [done|].
  apply Forall_cons in Hold as [Hline Hrest].
  destruct (blank line) eqn:Hb; [by apply IH|].
  destruct Hline as [Hblank|[p Hp]]; [congruence|].
  rewrite Hp. by apply IH.
Qed.

Lemma read_lines_written ps :
  Forall (reads_back blank json parse_raw) ps →
  read_lines blank parse_raw ((fun p => json p +:+ nl) <$> ps) [] = ps.
Proof.
  induction ps as [|p rest IH]; intros Hps; [done|].
  apply Forall_cons in Hps as [(_ & Hb & Hp) Hrest].
  rewrite fmap_cons. cbn [read_lines].
  rewrite Hb, Hp, read_lines_acc, IH; done.
Qed.

Lemma get_profiles_appended file ps :
  terminated file →
  Forall (readable blank parse_raw) (file_lines file) →
  Forall (reads_back blank json parse_raw) ps →
  get_profiles blank parse_raw (file +:+ records json ps)
  = get_profiles blank parse_raw file ++ ps.
Proof.
  intros Hend Hfile Hps. unfold get_profiles.
  rewrite lines_of_appended; [|done|].
  - rewrite read_lines_app by done.
    rewrite read_lines_acc. by rewrite read_lines_written.
  - eapply Forall_impl; [exact Hps|]. by intros p (? & _).
Qed.


End store_facts.



(** A record written after a last line without line feed joins that line:
    neither is read. *)
Example record_joins_unfinished_line :
  let get := Node1Backend.get_profiles Node1Backend.blank_ascii
               Node1Backend.parse_plain in
  let unfinished := Node1Backend.json_plain Samples.ana in
  get (unfinished +:+ Py.nl) = [Samples.ana]
  ∧ get (Node1Backend.intakes Node1Backend.int_ascii Node1Backend.json_plain
           [(true, Samples.ana_again)] unfinished) = [].
Proof. split; vm_compute; reflexivity. Qed.

(** ** The theorems at sample inputs *)

(** C3 at a busy status, and in the server after a first request. *)
Lemma generate_conflict_witness :
  Node2Api.generate_briefings Samples.utcnow Samples.run_ok
    Node2Api.GenerateRequest_default Samples.busy tt
  = (Py.Raise Node2Api.conflict, Samples.busy, tt)
  ∧ let s := (Node2Api.arrive "2025-01-01T05:59:00"
                Node2Api.GenerateRequest_default Node2Api.server_init).2 in
    Node2Api.arrive "2025-01-01T06:00:00" Node2Api.GenerateRequest_default s
    = (Some Node2Api.conflict, s).
Proof.
  destruct (generate_conflict Samples.utcnow Samples.run_ok
              Node2Api.GenerateRequest_default Samples.busy tt eq_refl)
    as [Hseq Hsrv].
  split; [exact Hseq|]. intros s. apply Hsrv.
  - eapply Node2Api.reachable_step;
      [apply Node2Api.reachable_init | apply Node2Api.step_arrive].
  - vm_compute. lia.
Defined.

(** C4 at the initial status, for a run that raises. *)
Lemma flag_acquired_then_released_witness :
  (∃ js1, Node2Api.acquire (Samples.utcnow tt) Node2Api.job_status = Py.Ok js1
          ∧ Node2Api.running js1 = true)
  ∧ Node2Api.running
      (Node2Api.generate_briefings Samples.utcnow Samples.run_down
         Node2Api.GenerateRequest_default Node2Api.job_status tt).1.2 = false.
Proof.
  destruct (flag_acquired_then_released Samples.utcnow Samples.run_down
              Node2Api.GenerateRequest_default Node2Api.job_status tt eq_refl)
    as ((js1 & Hacq & Hset & _) & Hend & _).
  split; [by exists js1 | exact Hend].
Defined.

(** C5 (as amended) at a run of three users, one of which failed. *)
Lemma generate_summary_witness :
  ∃ response js',
    Node2Api.generate_briefings Samples.utcnow Samples.run_ok
      Node2Api.GenerateRequest_default Node2Api.job_status tt
    = (Py.Ok response, js', tt)
    ∧ Node2Api.users_processed response = 3%Z
    ∧ Node2Api.successful response = 2%Z
    ∧ Node2Api.failed response = 1%Z.
Proof.
  destruct (proj1 (generate_summary Samples.utcnow Samples.run_ok
                     Node2Api.GenerateRequest_default Node2Api.job_status tt
                     eq_refl) Samples.three tt eq_refl)
    as (response & js' & Hgen & _ & _ & Hn & Hs & Hf & _).
  exists response, js'. split; [exact Hgen|].
  rewrite Hf, Hs, Hn. vm_compute. auto.
Defined.

(** C5 (as stated) fails: the flag is free, the run raises, and the
    handler raises HTTP 500 instead of returning a summary. *)
Lemma generate_raises_when_run_raises :
  Node2Api.running Node2Api.job_status = false
  ∧ Node2Api.generate_briefings Samples.utcnow Samples.run_down
      Node2Api.GenerateRequest_default Node2Api.job_status tt
    = (Py.Raise (Node2Api.Http
                   (Py.HTTPException 500 "Cannot connect to article service")),
       {| Node2Api.running := false;
          Node2Api.last_run := Some "2025-01-01T06:00:00Z";
          Node2Api.last_result := None |},
       tt).
Proof. split; reflexivity. Qed.

(** C8 at two sources, the first with four articles. *)
Lemma landscape_top_three_per_source_witness :
  ∃ system user (blocks : list string),
    Prompts.build_landscape_prompt Samples.repr ["AI Agents"; "Chips"]
      Samples.source_summaries 5 = Py.Ok (system, user)
    ∧ length (blocks : list string) = 2
    ∧ user = Prompts.LANDSCAPE_USER 2 5 (foldr String.append "" blocks).
Proof.
  assert (∃ system user,
            Prompts.build_landscape_prompt Samples.repr ["AI Agents"; "Chips"]
              Samples.source_summaries 5 = Py.Ok (system, user))
    as (system & user & Hbuilt)
    by (eexists _, _; vm_compute; reflexivity).
  destruct (proj2 (landscape_top_three_per_source Samples.repr
                     ["AI Agents"; "Chips"] Samples.source_summaries 5)
              system user Hbuilt) as (blocks & Hblocks & Huser).
  exists system, user, blocks. split; [exact Hbuilt|]. split; [|exact Huser].
  apply Forall2_length in Hblocks. symmetry. exact Hblocks.
Defined.

(** ** The intake service as a whole *)

Section intake_service_facts.
Import Py Node1Backend Node1Endpoints.
Variable repr : value -> string.
Variable int : string -> option Z.
Variable blank : string -> bool.
Variable json : UserProfile -> string.
Variable parse_raw : string -> option UserProfile.

Lemma serve_all_intakes calls : ∀ file,
  serve_all repr int blank json parse_raw calls file
  = intakes int json (intakes_of calls) file.
Proof.
  induction calls as [|c rest IH]; intros file; [done|].
  destruct c as [io_ok p|data|data|]; cbn [serve_all intakes_of omap list_omap];
    rewrite IH; simpl; [|done..].
  by destruct (create_intake int json io_ok p file).
Qed.


Lemma accepted_valid io_ok p :
  accepted int io_ok p = true →
  email p ≠ ""
  ∧ valid_briefing_time int (briefing_time p) = true
  ∧ topics p ≠ [].
Proof.
  unfold accepted. intros H.
  apply andb_true_iff in H as [H Ht].
  apply andb_true_iff in H as [H Hv].
  apply andb_true_iff in H as [_ He].
  split; [|split; [done|]].
  - intros Heq. rewrite Heq in He. discriminate He.
  - by destruct (topics p).
Qed.

Lemma accepted_profiles_valid requests :
  Forall (fun p => email p ≠ ""
                   ∧ valid_briefing_time int (briefing_time p) = true
                   ∧ topics p ≠ [])
         (accepted_profiles int requests).
Proof.
  unfold accepted_profiles. apply Forall_fmap, Forall_forall.
  intros [io_ok p] Hin. apply list_elem_of_filter in Hin as [Hacc _].
  by apply (accepted_valid io_ok).
Qed.



Lemma read_lines_skips_blank lines : ∀ profiles,
  read_lines blank parse_raw (filter (fun line => blank line = false) lines)
    profiles
  = read_lines blank parse_raw lines profiles.
Proof.
  induction lines as [|line rest IH]; intros profiles; [done|].
  destruct (blank line) eqn:Hb.
  - rewrite filter_cons_False by (by rewrite Hb). simpl. by rewrite Hb.
  - rewrite filter_cons_True by done. simpl. rewrite Hb.
    destruct (parse_raw line); [apply IH | done].
Qed.

(** X4: lines of white space only are skipped wherever they stand: the
    profiles read from the lines of a file are those read from its lines
    that are not blank. *)
Theorem blank_lines_are_skipped file :
  read_lines blank parse_raw
    (filter (fun line => blank line = false) (file_lines file)) []
  = get_profiles blank parse_raw file.
Proof. apply read_lines_skips_blank. Qed.

End intake_service_facts.

Section briefing_time_facts.
Import Py Node1Backend Node1Endpoints.
Variable int : string -> option Z.

Lemma split_no_colon (s : string) :
  forallb (fun c => negb (Ascii.eqb c ":"%char)) (list_ascii_of_string s) = true →
  split ":" s = [s].
Proof.
  induction s as [|c s IH]; simpl; [done|].
  intros [Hc Hs]%andb_true_iff.
  destruct (Ascii.eqb c ":"%char); [done|]. by rewrite (IH Hs).
Qed.

Lemma split_at_colon (a b : string) :
  forallb (fun c => negb (Ascii.eqb c ":"%char)) (list_ascii_of_string a) = true →
  split ":" (a +:+ ":" +:+ b) = a :: split ":" b.
Proof.
  induction a as [|c a IH]; [done|].
  change (String c a +:+ ":" +:+ b) with (String c (a +:+ ":" +:+ b)).
  simpl. intros [Hc Ha]%andb_true_iff.
  destruct (Ascii.eqb c ":"%char); [done|]. by rewrite (IH Ha).
Qed.

Lemma two_digits_no_colon (n : nat) :
  (n < 100)%nat →
  forallb (fun c => negb (Ascii.eqb c ":"%char))
          (list_ascii_of_string (two_digits n)) = true.
Proof.
  assert (forallb (fun n =>
            forallb (fun c => negb (Ascii.eqb c ":"%char))
                    (list_ascii_of_string (two_digits n)))
          (seq 0 100) = true) as T by (vm_compute; reflexivity).
  intros Hn. rewrite forallb_forall in T. apply T, in_seq. lia.
Qed.

(** X5: when [int] reads the numbers 00 to 99 written on two digits, the
    validation of [create_intake] accepts, on the format HH:MM that its
    error message names, exactly the times of a day: hours 00 to 23 and
    minutes 00 to 59. *)
Theorem two_digit_times (h m : nat) :
  (∀ n : nat, (n < 100)%nat → int (two_digits n) = Some (Z.of_nat n)) →
  (h < 100)%nat → (m < 100)%nat →
  valid_briefing_time int (two_digits h +:+ ":" +:+ two_digits m)
  = ((h <? 24)%nat && (m <? 60)%nat).
Proof.
  intros Hint Hh Hm. unfold valid_briefing_time.
  rewrite split_at_colon by (by apply two_digits_no_colon).
  rewrite split_no_colon by (by apply two_digits_no_colon).
  rewrite !Hint by done.
  destruct (Nat.ltb_spec h 24), (Nat.ltb_spec m 60); simpl;
    repeat match goal with
    | |- context [(?a <=? ?b)%Z] => destruct (Z.leb_spec a b); simpl
    | |- context [(?a <? ?b)%Z] => destruct (Z.ltb_spec a b); simpl
    end; (done || lia).
Qed.

End briefing_time_facts.
(** ** The status of the trigger over time *)

Section job_status_facts.
Import Py BriefingGenerator Node2Api Node2Endpoints.

(** The counts of a stored result add up. *)
Lemma settle_counts outcome js d :
  last_result (settle outcome js).2 = Some d →
  last_result js = Some d
  ∨ ∃ ok ko : Z,
      (0 ≤ ok)%Z ∧ (0 ≤ ko)%Z
      ∧ d !! "successful" = Some ok ∧ d !! "failed" = Some ko
      ∧ d !! "users" = Some (ok + ko)%Z.
Proof.
  destruct outcome as [results|[text|text]]; simpl; intros H; [|by left..].
  right. injection H as <-.
  pose proof (count_success_le results) as Hc.
  exists (count_success results),
         (Z.of_nat (length results) - count_success results)%Z.
  split; [lia|]. split; [lia|]. split; [done|]. split; [done|].
  replace (count_success results
           + (Z.of_nat (length results) - count_success results))%Z
    with (Z.of_nat (length results)) by lia.
  done.
Qed.

(** What every state of the server satisfies. *)
Lemma server_invariant s :
  reachable s →
  (running (job s) = true → is_Some (last_run (job s)))
  ∧ (is_Some (last_result (job s)) → is_Some (last_run (job s)))
  ∧ ∀ d, last_result (job s) = Some d →
      ∃ ok ko : Z,
        (0 ≤ ok)%Z ∧ (0 ≤ ko)%Z
        ∧ d !! "successful" = Some ok ∧ d !! "failed" = Some ko
        ∧ d !! "users" = Some (ok + ko)%Z.
Proof.
  induction 1 as [|s s' Hs (IHrun & IHres & IHcount) Hstep].
  - split; [done|]. split; [by intros [? ?]|done].
  - destruct Hstep as [now request s|outcome s Hpos].
    + unfold arrive, acquire.
      destruct (running (job s)) eqn:Hr; simpl; [by rewrite Hr|].
      split; [eauto|]. split; [eauto|]. exact IHcount.
    + assert (running (job s) = true) as Hr.
      { pose proof (one_run_at_a_time s Hs) as Hone.
        destruct (running (job s)); [done | lia]. }
      specialize (IHrun Hr). unfold resume.
      pose proof (settle_counts outcome (job s)) as Hcounts.
      assert (last_run (settle outcome (job s)).2 = last_run (job s)) as Hlast
        by (by destruct outcome as [results|[text|text]]).
      pose proof (settle_releases outcome (job s)) as Hrel.
      destruct (settle outcome (job s)) as [reply js2]. simpl in *.
      rewrite Hrel, Hlast. split; [done|]. split; [done|].
      intros d Hd. destruct (Hcounts d Hd) as [Hold|Hnew]; eauto.
Qed.


(** X7: in every state the server can reach, [GET /health] reports
    [job_running] true exactly when a handler is suspended in its run,
    and then [last_run] is a time stamp and not null. *)
Theorem health_reports_the_run s now :
  reachable s →
  (health now (job s) !! "job_running" = Some (VBool true) ↔ awaiting s = 1)
  ∧ (awaiting s = 1 →
     ∃ t, health now (job s) !! "last_run" = Some (VStr t)).
Proof.
  intros Hs. pose proof (one_run_at_a_time s Hs) as Hone.
  destruct (server_invariant s Hs) as (Hrun & _ & _).
  assert (health now (job s) !! "job_running" = Some (VBool (running (job s))))
    as -> by done.
  split.
  - destruct (running (job s)); rewrite Hone; split; (done || lia).
  - intros Hone'. rewrite Hone' in Hone.
    destruct (running (job s)); [|lia].
    destruct (Hrun eq_refl) as [t Ht]. exists t.
    unfold health. rewrite Ht. done.
Qed.

(** X8: the flag never stays set after a run: when the run of the
    suspended handler settles, with a result or with any exception, the
    next request is admitted and becomes the one handler in a run. *)
Theorem next_request_is_admitted s outcome now request :
  reachable s → (0 < awaiting s)%nat →
  let after := (resume outcome s).2 in
  (arrive now request after).1 = None
  ∧ awaiting (arrive now request after).2 = 1
  ∧ running (job (arrive now request after).2) = true.
Proof.
  intros Hs Hpos after. subst after.
  pose proof (one_run_at_a_time s Hs) as Hone.
  assert (running (job s) = true) as Hr
    by (destruct (running (job s)); [done | lia]).
  rewrite Hr in Hone. unfold resume.
  pose proof (settle_releases outcome (job s)) as Hrel.
  destruct (settle outcome (job s)) as [reply js2]. simpl in *.
  unfold arrive, acquire. simpl. rewrite Hrel, Hone. done.
Qed.

End job_status_facts.
(** ** The grouping of the processed articles by source *)

Section grouping_facts.
Import Py BriefingGenerator Node2Api Node2Endpoints.
Variable key_eqb : value -> value -> bool.

Implicit Types (a : gmap string value) (src k : value).
Implicit Types (d : list (value * list (gmap string value))).
Implicit Types (processed seen : list (gmap string value)).

(** The first key equal to [src] gets the article, or a new last key. *)
Lemma add_to_source_cases d src a :
  (∃ d1 k articles d2,
     d = d1 ++ (k, articles) :: d2
     ∧ Forall (fun item => key_eqb item.1 src = false) d1
     ∧ key_eqb k src = true
     ∧ add_to_source key_eqb d src a = d1 ++ (k, articles ++ [a]) :: d2)
  ∨ (Forall (fun item => key_eqb item.1 src = false) d
     ∧ add_to_source key_eqb d src a = d ++ [(src, [a])]).
Proof.
  induction d as [|[k articles] rest IH]; simpl.
  - right. by split.
  - destruct (key_eqb k src) eqn:Hk.
    + left. exists [], k, articles, rest. by repeat split.
    + destruct IH as [(d1 & k' & arts & d2 & -> & Hd1 & Hk' & ->)|[Hall ->]].
      * left. exists ((k, articles) :: d1), k', arts, d2.
        repeat split; [|done]. by constructor.
      * right. split; [by constructor | done].
Qed.

Lemma group_processed_ok processed : ∀ d,
  (∃ d', group_processed key_eqb processed d = Ok d')
  ↔ Forall (fun a => hashable (source_of a) = true) processed.
Proof.
  induction processed as [|a rest IH]; intros d; simpl.
  - split; [constructor | eauto].
  - destruct (hashable (source_of a)) eqn:Hh.
    + rewrite IH. split; [by constructor | by inversion 1].
    + split; [by intros [? ?] | inversion 1; congruence].
Qed.

Lemma add_to_source_holds d src a :
  concat (add_to_source key_eqb d src a).*2 ≡ₚ concat d.*2 ++ [a].
Proof.
  destruct (add_to_source_cases d src a)
    as [(d1 & k & arts & d2 & -> & _ & _ & ->)|[_ ->]].
  - rewrite !fmap_app, !fmap_cons, !concat_app, !concat_cons. simpl.
    rewrite <- !(assoc_L (++)). apply Permutation_app_head.
    apply Permutation_app_head. apply Permutation_app_comm.
  - rewrite !fmap_app, concat_app. simpl. done.
Qed.

Lemma add_to_source_in_order d src a seen :
  Forall (fun item => item.2 `sublist_of` seen ∧ item.2 ≠ []) d →
  Forall (fun item => item.2 `sublist_of` seen ++ [a] ∧ item.2 ≠ [])
         (add_to_source key_eqb d src a).
Proof.
  intros Hd.
  assert (Forall (fun item => item.2 `sublist_of` seen ++ [a] ∧ item.2 ≠ []) d)
    as Hd'.
  { eapply Forall_impl; [exact Hd|]. intros item [Hs Hn].
    split; [by apply sublist_inserts_r | done]. }
  destruct (add_to_source_cases d src a)
    as [(d1 & k & arts & d2 & -> & _ & _ & ->)|[_ ->]].
  - apply Forall_app in Hd as [_ H2].
    apply Forall_cons in H2 as [[Hsub Hne] _].
    apply Forall_app in Hd' as [H1' H2'].
    apply Forall_cons in H2' as [_ H2'].
    apply Forall_app. split; [done|]. constructor; [|done].
    simpl in *. split; [by apply sublist_app | by destruct arts].
  - apply Forall_app. split; [done|].
    constructor; [|constructor]. simpl. split; [|done].
    by apply sublist_inserts_l.
Qed.

Lemma group_processed_holds processed : ∀ d0 d,
  group_processed key_eqb processed d0 = Ok d →
  concat d.*2 ≡ₚ concat d0.*2 ++ processed.
Proof.
  induction processed as [|a rest IH]; intros d0 d H; simpl in H.
  - injection H as <-. by rewrite app_nil_r.
  - destruct (hashable (source_of a)); [|discriminate].
    apply IH in H. rewrite H, add_to_source_holds.
    by rewrite <- (assoc_L (++)).
Qed.

Lemma group_processed_in_order processed : ∀ d0 d seen,
  group_processed key_eqb processed d0 = Ok d →
  Forall (fun item => item.2 `sublist_of` seen ∧ item.2 ≠ []) d0 →
  Forall (fun item => item.2 `sublist_of` seen ++ processed ∧ item.2 ≠ []) d.
Proof.
  induction processed as [|a rest IH]; intros d0 d seen H Hd0; simpl in H.
  - injection H as <-. by rewrite app_nil_r.
  - destruct (hashable (source_of a)); [|discriminate].
    apply (IH _ _ (seen ++ [a])) in H;
      [|by apply add_to_source_in_order].
    by rewrite <- (assoc_L (++)) in H.
Qed.

(** X9: the grouping loop of the preview loses and repeats nothing,
    whatever the equality of keys: it ends without error exactly when no
    article has a list or a dictionary as its source, and then the groups
    together hold every processed article once, each group holds its
    articles in the order in which they were processed, and no group is
    empty. *)
Theorem grouping_keeps_every_article processed :
  ((∃ d, group_processed key_eqb processed [] = Ok d)
   ↔ Forall (fun a => hashable (source_of a) = true) processed)
  ∧ ∀ d, group_processed key_eqb processed [] = Ok d →
      concat d.*2 ≡ₚ processed
      ∧ Forall (fun item => item.2 `sublist_of` processed ∧ item.2 ≠ []) d.
Proof.
  split; [apply group_processed_ok|].
  intros d H. split.
  - by apply group_processed_holds in H.
  - apply (group_processed_in_order processed [] d [] H). constructor.
Qed.

Section by_source.

(** The processed articles, on the sources of which the equality of keys
    is an equivalence. *)
Variable all : list (gmap string value).

Hypothesis key_refl : ∀ a,
  a ∈ all → key_eqb (source_of a) (source_of a) = true.

Hypothesis key_eucl : ∀ a b c,
  a ∈ all → b ∈ all → c ∈ all →
  key_eqb (source_of a) (source_of b) = true →
  key_eqb (source_of b) (source_of c) = key_eqb (source_of a) (source_of c).

Lemma key_sym a b :
  a ∈ all → b ∈ all →
  key_eqb (source_of a) (source_of b) = true →
  key_eqb (source_of b) (source_of a) = true.
Proof.
  intros Ha Hb H. rewrite (key_eucl a b a) by done. by apply key_refl.
Qed.

Lemma fop_app {A} (R : A → A → Prop) (l1 l2 : list A) :
  ForallOrdPairs R l1 → ForallOrdPairs R l2 →
  (∀ x y, x ∈ l1 → y ∈ l2 → R x y) →
  ForallOrdPairs R (l1 ++ l2).
Proof.
  induction 1 as [|x l1 Hx H1 IH]; intros H2 Hcross; [done|].
  simpl. constructor.
  - apply Forall_app. split; [done|].
    apply Forall_forall. intros y Hy. apply Hcross; [left | done].
  - apply IH; [done|]. intros x' y Hx' Hy. apply Hcross; [by right | done].
Qed.

Lemma fop_cross {A} (R : A → A → Prop) (l1 l2 : list A) x y :
  ForallOrdPairs R (l1 ++ x :: l2) → y ∈ l2 → R x y.
Proof.
  induction l1 as [|z l1 IH]; simpl; intros H Hy.
  - inversion H as [|? ? Hx _]; subst.
    rewrite Forall_forall in Hx. by apply Hx.
  - inversion H; subst. by apply IH.
Qed.

Lemma filter_snoc_false (P : gmap string value → Prop) `{∀ a, Decision (P a)}
    seen a :
  ¬ P a → filter P (seen ++ [a]) = filter P seen.
Proof.
  intros Hn. rewrite filter_app, filter_cons_False by done.
  by rewrite filter_nil, app_nil_r.
Qed.

Lemma filter_snoc_true (P : gmap string value → Prop) `{∀ a, Decision (P a)}
    seen a :
  P a → filter P (seen ++ [a]) = filter P seen ++ [a].
Proof.
  intros Hp. rewrite filter_app, filter_cons_True by done.
  by rewrite filter_nil.
Qed.

Lemma filter_none (P : gmap string value → Prop) `{∀ a, Decision (P a)} seen :
  Forall (fun a => ¬ P a) seen → filter P seen = [].
Proof.
  induction 1 as [|a rest Ha _ IH]; [done|].
  by rewrite filter_cons_False.
Qed.

Local Ltac in_list :=
  rewrite ?elem_of_app, ?elem_of_cons; simpl; solve [intuition eauto].

Lemma grouped_step seen d a :
  (∀ a', a' ∈ seen ++ [a] → a' ∈ all) →
  grouped key_eqb seen d →
  grouped key_eqb (seen ++ [a]) (add_to_source key_eqb d (source_of a) a).
Proof.
  intros Hall (Hitems & Hkeys & Hcover).
  assert (a ∈ all) as Ha by (apply Hall; in_list).
  assert (∀ a', a' ∈ seen → a' ∈ all) as Hseen
    by (intros a' ?; apply Hall; in_list).
  assert (∀ item, item ∈ d → ∃ a0, a0 ∈ all ∧ item.1 = source_of a0) as Hsrc.
  { intros item Hin. rewrite Forall_forall in Hitems.
    destruct (Hitems item Hin) as [(a0 & H0 & Hk) _]. eauto. }
  destruct (add_to_source_cases d (source_of a) a)
    as [(d1 & k & arts & d2 & -> & Hd1 & Hk & ->)|[Hmiss ->]].
  - (* the article joins the group of [k] *)
    destruct (Hsrc (k, arts)) as (ak & Hak & Hkk); [in_list|].
    simpl in Hkk. subst k.
    assert (Forall (fun item => key_eqb item.1 (source_of a) = false) d2) as Hd2.
    { apply Forall_forall. intros [k' arts'] Hin. simpl.
      destruct (Hsrc (k', arts')) as (a' & Ha' & Hk'); [in_list|].
      simpl in Hk'. subst k'.
      destruct (key_eqb (source_of a') (source_of a)) eqn:Hhit; [|done].
      assert (key_eqb (source_of ak) (source_of a') = false) as Hne.
      { rewrite fmap_app, fmap_cons in Hkeys.
        apply (fop_cross _ _ _ _ (source_of a') Hkeys).
        apply (list_elem_of_fmap_2 fst _ (source_of a', arts')) in Hin. done. }
      rewrite <- (key_eucl ak a a') in Hne by done.
      rewrite (key_sym a' a) in Hne by done. discriminate. }
    apply Forall_app in Hitems as [H1 H2].
    apply Forall_cons in H2 as [[(a1 & Ha1 & Hk1) Harts] H2].
    simpl in Harts, Hk1.
    split; [|split].
    + apply Forall_app. split; [|constructor].
      * rewrite Forall_forall in H1, Hd1. apply Forall_forall.
        intros item Hin. destruct (H1 item Hin) as [(a0 & H0 & Hk0) Hf].
        split; [exists a0; split; [in_list | done]|].
        rewrite filter_snoc_false; [done|]. by rewrite (Hd1 item Hin).
      * simpl. split; [exists a1; split; [in_list | done]|].
        rewrite filter_snoc_true by done. by rewrite <- Harts.
      * rewrite Forall_forall in H2, Hd2. apply Forall_forall.
        intros item Hin. destruct (H2 item Hin) as [(a0 & H0 & Hk0) Hf].
        split; [exists a0; split; [in_list | done]|].
        rewrite filter_snoc_false; [done|]. by rewrite (Hd2 item Hin).
    + by rewrite fmap_app, fmap_cons in *.
    + intros a' Hin. apply elem_of_app in Hin as [Hin|Hin].
      * specialize (Hcover a' Hin).
        apply Exists_app in Hcover as [Hc|Hc]; apply Exists_app; [by left|].
        right. apply Exists_cons in Hc as [Hc|Hc];
          apply Exists_cons; [by left | by right].
      * apply list_elem_of_singleton in Hin as ->.
        apply Exists_app. right. by apply Exists_cons_hd.
  - (* the article opens a group *)
    split; [|split].
    + apply Forall_app. split; [|constructor; [|constructor]].
      * rewrite Forall_forall in Hitems, Hmiss. apply Forall_forall.
        intros item Hin. destruct (Hitems item Hin) as [(a0 & H0 & Hk0) Hf].
        split; [exists a0; split; [in_list | done]|].
        rewrite filter_snoc_false; [done|]. by rewrite (Hmiss item Hin).
      * simpl. split; [exists a; split; [in_list | done]|].
        rewrite filter_snoc_true by (by apply key_refl).
        replace (filter (fun a0 => key_eqb (source_of a) (source_of a0) = true) seen)
          with (@nil (gmap string value)); [done|].
        symmetry. apply filter_none, Forall_forall. intros a' Hin Hhit.
        specialize (Hcover a' Hin). apply Exists_exists in Hcover
          as ([k' arts'] & Hin' & Hk'). simpl in Hk'.
        destruct (Hsrc (k', arts') Hin') as (a0 & H0 & Hk0).
        simpl in Hk0. subst k'.
        rewrite Forall_forall in Hmiss. specialize (Hmiss _ Hin'). simpl in Hmiss.
        rewrite <- (key_eucl a0 a' a) in Hmiss by auto.
        rewrite (key_sym a a') in Hmiss by auto. discriminate.
    + rewrite fmap_app. apply fop_app; [done | repeat constructor |].
      intros x y Hx Hy. apply list_elem_of_singleton in Hy as ->. simpl.
      apply list_elem_of_fmap in Hx as ([k' arts'] & -> & Hin).
      rewrite Forall_forall in Hmiss. apply (Hmiss _ Hin).
    + intros a' Hin. apply Exists_app.
      apply elem_of_app in Hin as [Hin|Hin]; [left; by apply Hcover|].
      apply list_elem_of_singleton in Hin as ->.
      right. apply Exists_cons_hd. by apply key_refl.
Qed.

Lemma grouped_loop rest : ∀ seen d0 d,
  seen ++ rest = all → grouped key_eqb seen d0 →
  group_processed key_eqb rest d0 = Ok d → grouped key_eqb all d.
Proof.
  induction rest as [|a rest IH]; intros seen d0 d Hall Hd0 H; simpl in H.
  - injection H as <-. by rewrite app_nil_r in Hall; subst.
  - destruct (hashable (source_of a)); [|discriminate].
    apply (IH (seen ++ [a])) in H; [done | by rewrite <- (assoc_L (++)) |].
    apply grouped_step; [|done].
    intros a' Hin. rewrite <- Hall.
    apply elem_of_app in Hin as [Hin|Hin%list_elem_of_singleton];
      [|subst a']; in_list.
Qed.

Lemma grouped_all d :
  group_processed key_eqb all [] = Ok d →
  Forall (fun item =>
            item.2 = filter (fun a => key_eqb item.1 (source_of a) = true) all)
         d
  ∧ ForallOrdPairs (fun k k' => key_eqb k k' = false) d.*1
  ∧ ∀ a, a ∈ all →
      Exists (fun item => key_eqb item.1 (source_of a) = true) d.
Proof.
  intros H. apply (grouped_loop all [] [] d) in H; [|done|].
  - destruct H as (H1 & H2 & H3). split; [|done].
    eapply Forall_impl; [exact H1|]. by intros item [_ ?].
  - split; [constructor|]. split; [constructor|]. intros a Ha. by apply not_elem_of_nil in Ha.
Qed.

End by_source.


End grouping_facts.
(** ** The preview of a briefing *)

Section preview_facts.
Import Py BriefingGenerator Node2Api Node2Endpoints.
Context {World : Type}.
Variable new_generator : World -> result raised (generator (World:=World)) * World.
Variable since_date : World -> string.
Variable briefing_date : World -> string.
Variable key_eqb : value -> value -> bool.
Variable unhashable_text : value -> string.

(** One call of a collaborator in the handler: it returns and the handler
    goes on, or it raises and the handler ends with that exception. *)
Local Ltac called H f :=
  let r := fresh "r" in
  let w := fresh "w" in
  let Hc := fresh "Hcall" in
  unfold bind at 1 in H; unfold call at 1 in H;
  destruct f as [[r|?] w] eqn:Hc; simpl in H; [|by simplify_eq].

Lemma find_none_email (email0 : string) (profiles : list UserProfile) :
  find (fun p => String.eqb (BriefingGenerator.email p) email0) profiles = None →
  Forall (fun p => BriefingGenerator.email p ≠ email0) profiles.
Proof.
  induction profiles as [|p rest IH]; simpl; [constructor|].
  destruct (String.eqb_spec (BriefingGenerator.email p) email0); [done|].
  intros H. constructor; [done | by apply IH].
Qed.

Lemma find_first_email (email0 : string) (profiles : list UserProfile) user :
  find (fun p => String.eqb (BriefingGenerator.email p) email0) profiles
  = Some user →
  ∃ before after,
    profiles = before ++ user :: after
    ∧ Forall (fun p => BriefingGenerator.email p ≠ email0) before
    ∧ BriefingGenerator.email user = email0.
Proof.
  induction profiles as [|p rest IH]; simpl; [done|].
  destruct (String.eqb_spec (BriefingGenerator.email p) email0) as [He|He].
  - intros [= ->]. by exists [], rest.
  - intros H. destruct (IH H) as (before & after & -> & Hb & Hu).
    exists (p :: before), after. split; [done|]. split; [by constructor|done].
Qed.



End preview_facts.
(** ** When the landscape prompt is built *)

Section landscape_keys.
Import Py Prompts.
Variable repr : value -> string.

Lemma add_bullets_keys articles : ∀ text,
  match add_bullets repr text articles with
  | Ok _ =>
      Forall (fun a => is_Some (a !! "title") ∧ is_Some (a !! "summary"))
             articles
  | Raise e =>
      (e = KeyError "title" ∨ e = KeyError "summary")
      ∧ Exists (fun a => a !! "title" = None ∨ a !! "summary" = None) articles
  end.
Proof.
  induction articles as [|a rest IH]; intros text; simpl; [constructor|].
  unfold getitem.
  destruct (a !! "title") as [title|] eqn:Ht; simpl;
    [|split; [by left | left; by left]].
  destruct (a !! "summary") as [summary|] eqn:Hs; simpl;
    [|split; [by right | left; by right]].
  specialize (IH (text +:+ "- " +:+ str repr title +:+ ": "
                  +:+ str repr summary +:+ nl)).
  destruct (add_bullets repr _ rest) as [text'|e].
  - constructor; [|done]. rewrite Ht, Hs. split; eauto.
  - destruct IH as [He Hex]. split; [done | by right].
Qed.

Lemma add_sources_keys items : ∀ text,
  match add_sources repr text items with
  | Ok _ =>
      Forall (fun item =>
                Forall (fun a => is_Some (a !! "title")
                                 ∧ is_Some (a !! "summary"))
                       (take 3 item.2))
             items
  | Raise e =>
      (e = KeyError "title" ∨ e = KeyError "summary")
      ∧ Exists (fun item =>
                  Exists (fun a => a !! "title" = None ∨ a !! "summary" = None)
                         (take 3 item.2))
               items
  end.
Proof.
  induction items as [|[source articles] rest IH]; intros text; simpl;
    [constructor|].
  pose proof (add_bullets_keys (take 3 articles)
                (text +:+ nl +:+ "## " +:+ str repr source +:+ nl)) as Hb.
  destruct (add_bullets repr _ (take 3 articles)) as [text1|e]; simpl.
  - specialize (IH text1).
    destruct (add_sources repr text1 rest) as [text'|e].
    + by constructor.
    + destruct IH as [He Hex]. split; [done | by right].
  - destruct Hb as [He Hex]. split; [done | by left].
Qed.


End landscape_keys.
(** ** The further theorems at sample inputs *)

Lemma int_ascii_two_digits (n : nat) :
  (n < 100)%nat →
  Node1Backend.int_ascii (Node1Endpoints.two_digits n) = Some (Z.of_nat n).
Proof.
  assert (forallb (fun n =>
            bool_decide (Node1Backend.int_ascii (Node1Endpoints.two_digits n)
                         = Some (Z.of_nat n)))
          (seq 0 100) = true) as T by (vm_compute; reflexivity).
  intros Hn. rewrite forallb_forall in T.
  eapply bool_decide_eq_true_1, T, in_seq. lia.
Qed.

(** X5 at half past six in the evening and at the hour 24. *)
Lemma two_digit_times_witness :
  Node1Backend.valid_briefing_time Node1Backend.int_ascii "18:30" = true
  ∧ Node1Backend.valid_briefing_time Node1Backend.int_ascii "24:00" = false.
Proof.
  split.
  - apply (two_digit_times Node1Backend.int_ascii 18 30 int_ascii_two_digits);
      lia.
  - apply (two_digit_times Node1Backend.int_ascii 24 0 int_ascii_two_digits);
      lia.
Defined.


Lemma started_reachable : Node2Api.reachable Samples.started.
Proof.
  eapply Node2Api.reachable_step;
    [apply Node2Api.reachable_init | apply Node2Api.step_arrive].
Qed.

Lemma finished_reachable : Node2Api.reachable Samples.finished.
Proof.
  eapply Node2Api.reachable_step; [apply started_reachable|].
  apply Node2Api.step_resume. vm_compute. lia.
Qed.


(** X7 while the first run is in progress. *)
Lemma health_reports_the_run_witness :
  (Node2Endpoints.health "2025-01-01T06:00:00" (Node2Api.job Samples.started)
     !! "job_running" = Some (Py.VBool true)
   ↔ Node2Api.awaiting Samples.started = 1)
  ∧ (Node2Api.awaiting Samples.started = 1 →
     ∃ t, Node2Endpoints.health "2025-01-01T06:00:00"
            (Node2Api.job Samples.started) !! "last_run"
          = Some (Py.VStr t)).
Proof.
  apply (health_reports_the_run Samples.started "2025-01-01T06:00:00"
           started_reachable).
Defined.

(** X8 after a run that raised. *)
Lemma next_request_is_admitted_witness :
  let after :=
    (Node2Api.resume
       (Py.Raise (Node2Api.Exception "Cannot connect to article service"))
       Samples.started).2 in
  (Node2Api.arrive "2025-01-01T07:00:00" Node2Api.GenerateRequest_default
     after).1 = None
  ∧ Node2Api.awaiting
      (Node2Api.arrive "2025-01-01T07:00:00" Node2Api.GenerateRequest_default
         after).2 = 1
  ∧ Node2Api.running
      (Node2Api.job
         (Node2Api.arrive "2025-01-01T07:00:00"
            Node2Api.GenerateRequest_default after).2) = true.
Proof.
  apply (next_request_is_admitted Samples.started
           (Py.Raise (Node2Api.Exception "Cannot connect to article service"))
           "2025-01-01T07:00:00" Node2Api.GenerateRequest_default
           started_reachable).
  vm_compute. lia.
Defined.




(** X13 at two feeds, the first with four articles. *)
Example landscape_prompt_of_samples :
  ∃ prompts,
    Prompts.build_landscape_prompt Samples.repr ["AI Agents"]
      Samples.source_summaries 5 = Py.Ok prompts.
Proof. eexists. vm_compute. reflexivity. Qed.
